(** * TwoBtnMidiController: a shallow embedding of the sketch

    The sketch [TwoBtnMidiController.ino] is embedded function by function.
    Globals of the sketch are the fields of [Machine]; every [void f()] of the
    sketch is a function [Machine -> Machine] of the same name.  What the sketch
    hands to its libraries (display, MIDI, EEPROM, delay, Fsm triggers) is
    recorded in [trace], newest call first.

    The libraries are not part of the sketch.  Of OneButton the model keeps
    the three callback slots per button and that a gesture calls the callback
    attached for it; of Fsm, that [trigger] makes the first registered
    transition leaving the current state on that event, running the exit
    action and then the entry action, and drops an event that matches none;
    of EEPROM, [get] and [put] of the ten bytes of the settings block.
    [int] is taken as 16 bit and [byte] as 8 bit, as on the AVR boards. *)

From Stdlib Require Import ZArith List String Bool Lia.
From Stdlib Require Import DecimalString.
Import ListNotations.
Open Scope Z_scope.

(** ** Machine integers *)

(** [int] on the AVR boards the sketch targets is 16 bit, two's complement. *)
Definition INT_MIN : Z := -32768.
Definition INT_MAX : Z := 32767.
Definition int_wrap (z : Z) : Z := (z + 32768) mod 65536 - 32768.

(** [byte] is an unsigned 8 bit value. *)
Definition byte_wrap (z : Z) : Z := z mod 256.

(** ** Constants of the sketch *)

Definition INIT_SHOWTIME : Z := 3000.

Definition TO_RUN : Z := 1.
Definition TO_SETUP_MODE : Z := 2.
Definition TO_SETUP_MIDI : Z := 3.
Definition TO_SETUP_MODE1 : Z := 4.
Definition TO_SETUP_MODE1_LOW : Z := 4.
Definition TO_SETUP_MODE1_HI : Z := 5.
Definition TO_SETUP_MODE2 : Z := 6.
Definition TO_SETUP_MODE2_BTN1 : Z := 7.
Definition TO_SETUP_MODE2_BTN2 : Z := 8.
Definition TO_SETUP_MODE3 : Z := 9.
Definition TO_SETUP_MODE3_BTN1_PC1 : Z := 10.
Definition TO_SETUP_MODE3_BTN1_PC2 : Z := 11.
Definition TO_SETUP_MODE3_BTN2_PC1 : Z := 12.
Definition TO_SETUP_MODE3_BTN2_PC2 : Z := 13.
Definition TO_SETUP_EXIT : Z := 14.
Definition TO_SETUP_MODE_START : Z := 15.

Definition RUN_MODE1 : Z := 1.
Definition RUN_MODE2 : Z := 2.
Definition RUN_MODE3 : Z := 3.

Definition CONFIG_VERSION : Z := 1.
Definition CONFIG_START_ADDRESS : nat := 0.

(** ** Data *)

(** [struct settingsStruct]: ten [byte] fields, no padding. *)
Record settingsStruct : Type := mkSettings {
  sversion : Z;
  midiChannel : Z;
  mode1_lowlimitPC : Z;
  mode1_highlimitPC : Z;
  mode2_btn1PC : Z;
  mode2_btn2PC : Z;
  mode3_btn1PC1 : Z;
  mode3_btn1PC2 : Z;
  mode3_btn2PC1 : Z;
  mode3_btn2PC2 : Z
}.

(** The [State] objects of the sketch. *)
Inductive State : Type :=
| state_init
| state_run
| state_setup_mode
| state_setup_midi
| state_setup_mode1
| state_setup_mode1_low
| state_setup_mode1_hi
| state_setup_mode2_btn1
| state_setup_mode2_btn2
| state_setup_mode3_btn1PC1
| state_setup_mode3_btn1PC2
| state_setup_mode3_btn2PC1
| state_setup_mode3_btn2PC2
| state_setup_mode2
| state_setup_mode3
| state_setup_exit.

Definition State_eqb (a b : State) : bool :=
  match a, b with
  | state_init, state_init
  | state_run, state_run
  | state_setup_mode, state_setup_mode
  | state_setup_midi, state_setup_midi
  | state_setup_mode1, state_setup_mode1
  | state_setup_mode1_low, state_setup_mode1_low
  | state_setup_mode1_hi, state_setup_mode1_hi
  | state_setup_mode2_btn1, state_setup_mode2_btn1
  | state_setup_mode2_btn2, state_setup_mode2_btn2
  | state_setup_mode3_btn1PC1, state_setup_mode3_btn1PC1
  | state_setup_mode3_btn1PC2, state_setup_mode3_btn1PC2
  | state_setup_mode3_btn2PC1, state_setup_mode3_btn2PC1
  | state_setup_mode3_btn2PC2, state_setup_mode3_btn2PC2
  | state_setup_mode2, state_setup_mode2
  | state_setup_mode3, state_setup_mode3
  | state_setup_exit, state_setup_exit => true
  | _, _ => false
  end.

(** Function pointers handed to [OneButton::attach...]: one constructor per
    [void f()] of the sketch that is ever attached, and [NULL] for a slot that
    was never attached. *)
Inductive callbackFunction : Type :=
| NULL
| fp_cyclePcDown | fp_cyclePcUp
| fp_sendBtn1PC | fp_sendBtn2PC
| fp_sendBtn1TogglePC | fp_sendBtn2TogglePC
| fp_longPressStart1 | fp_longPressStart2
| fp_longPressFromRun
| fp_modeDown | fp_modeUp
| fp_longPressFromSetupMode
| fp_midiChnDown | fp_midiChnUp
| fp_longPressFromSetupMidi
| fp_nullClick
| fp_longPressFromSetupMode1
| fp_mode1LowLimitDecrease | fp_mode1LowLimitIncrease
| fp_longPressFromSetupMode1Low
| fp_mode1HiLimitDecrease | fp_mode1HiLimitIncrease
| fp_longPressFromSetupMode1Hi
| fp_longPressFromSetupMode2
| fp_mode2Btn1Decrease | fp_mode2Btn1Increase
| fp_longPressFromSetupMode2Btn1
| fp_mode2Btn2Decrease | fp_mode2Btn2Increase
| fp_longPressFromSetupMode2Btn2
| fp_longPressFromSetupMode3
| fp_longPressToRun.

(** The three callback slots of a [OneButton] the sketch uses. *)
Record OneButton : Type := mkButton {
  clickFunc : callbackFunction;
  longPressStartFunc : callbackFunction;
  longPressStopFunc : callbackFunction
}.

(** The part of [Fsm] the sketch depends on: the current state, the
    [m_initialized] flag and the start stamp of the one timed transition. *)
Record Fsm : Type := mkFsm {
  m_current_state : State;
  m_initialized : bool;
  timed_start : Z
}.

(** Calls into the libraries, in the order the sketch makes them. *)
Inductive Output : Type :=
| SetChars (msg : string)                 (* segDisp.setChars(msg) *)
| SetNumber (n : Z) (decPlaces : Z)       (* segDisp.setNumber(n, decPlaces) *)
| MidiBegin (ch : Z)                      (* MIDI.begin(ch) *)
| SendProgramChange (pc : Z) (ch : Z)     (* MIDI.sendProgramChange(pc, ch) *)
| EepromPut (s : settingsStruct)          (* EEPROM.put(CONFIG_START_ADDRESS, s) *)
| Delay (ms : Z)                          (* delay(ms) *)
| Trigger (event : Z).                    (* main_fsm.trigger(event) *)

(** All globals of the sketch, the EEPROM cells and the trace. *)
Record Machine : Type := mkMachine {
  _settings : settingsStruct;
  mode1_currentPC : Z;
  mode3_current_btn1PC : Z;
  mode3_current_btn2PC : Z;
  btn1_state : Z;
  btn2_state : Z;
  run_mode : Z;
  btn1 : OneButton;
  btn2 : OneButton;
  main_fsm : Fsm;
  EEPROM : nat -> Z;
  trace : list Output
}.

(** *** Assignments to one global *)

Definition set_settings (s : settingsStruct) (m : Machine) : Machine :=
  mkMachine s (mode1_currentPC m) (mode3_current_btn1PC m) (mode3_current_btn2PC m)
    (btn1_state m) (btn2_state m) (run_mode m) (btn1 m) (btn2 m) (main_fsm m)
    (EEPROM m) (trace m).

Definition set_mode1_currentPC (v : Z) (m : Machine) : Machine :=
  mkMachine (_settings m) v (mode3_current_btn1PC m) (mode3_current_btn2PC m)
    (btn1_state m) (btn2_state m) (run_mode m) (btn1 m) (btn2 m) (main_fsm m)
    (EEPROM m) (trace m).

Definition set_mode3_current_btn1PC (v : Z) (m : Machine) : Machine :=
  mkMachine (_settings m) (mode1_currentPC m) v (mode3_current_btn2PC m)
    (btn1_state m) (btn2_state m) (run_mode m) (btn1 m) (btn2 m) (main_fsm m)
    (EEPROM m) (trace m).

Definition set_mode3_current_btn2PC (v : Z) (m : Machine) : Machine :=
  mkMachine (_settings m) (mode1_currentPC m) (mode3_current_btn1PC m) v
    (btn1_state m) (btn2_state m) (run_mode m) (btn1 m) (btn2 m) (main_fsm m)
    (EEPROM m) (trace m).

Definition set_btn1_state (v : Z) (m : Machine) : Machine :=
  mkMachine (_settings m) (mode1_currentPC m) (mode3_current_btn1PC m)
    (mode3_current_btn2PC m) v (btn2_state m) (run_mode m) (btn1 m) (btn2 m)
    (main_fsm m) (EEPROM m) (trace m).

Definition set_btn2_state (v : Z) (m : Machine) : Machine :=
  mkMachine (_settings m) (mode1_currentPC m) (mode3_current_btn1PC m)
    (mode3_current_btn2PC m) (btn1_state m) v (run_mode m) (btn1 m) (btn2 m)
    (main_fsm m) (EEPROM m) (trace m).

Definition set_run_mode (v : Z) (m : Machine) : Machine :=
  mkMachine (_settings m) (mode1_currentPC m) (mode3_current_btn1PC m)
    (mode3_current_btn2PC m) (btn1_state m) (btn2_state m) v (btn1 m) (btn2 m)
    (main_fsm m) (EEPROM m) (trace m).

Definition set_btn1 (b : OneButton) (m : Machine) : Machine :=
  mkMachine (_settings m) (mode1_currentPC m) (mode3_current_btn1PC m)
    (mode3_current_btn2PC m) (btn1_state m) (btn2_state m) (run_mode m) b (btn2 m)
    (main_fsm m) (EEPROM m) (trace m).

Definition set_btn2 (b : OneButton) (m : Machine) : Machine :=
  mkMachine (_settings m) (mode1_currentPC m) (mode3_current_btn1PC m)
    (mode3_current_btn2PC m) (btn1_state m) (btn2_state m) (run_mode m) (btn1 m) b
    (main_fsm m) (EEPROM m) (trace m).

Definition set_main_fsm (f : Fsm) (m : Machine) : Machine :=
  mkMachine (_settings m) (mode1_currentPC m) (mode3_current_btn1PC m)
    (mode3_current_btn2PC m) (btn1_state m) (btn2_state m) (run_mode m) (btn1 m)
    (btn2 m) f (EEPROM m) (trace m).

Definition set_EEPROM (e : nat -> Z) (m : Machine) : Machine :=
  mkMachine (_settings m) (mode1_currentPC m) (mode3_current_btn1PC m)
    (mode3_current_btn2PC m) (btn1_state m) (btn2_state m) (run_mode m) (btn1 m)
    (btn2 m) (main_fsm m) e (trace m).

Definition emit (o : Output) (m : Machine) : Machine :=
  mkMachine (_settings m) (mode1_currentPC m) (mode3_current_btn1PC m)
    (mode3_current_btn2PC m) (btn1_state m) (btn2_state m) (run_mode m) (btn1 m)
    (btn2 m) (main_fsm m) (EEPROM m) (o :: trace m).

(** Assignments to one field of [_settings]. *)

Definition set_sversion (v : Z) (s : settingsStruct) : settingsStruct :=
  mkSettings v (midiChannel s) (mode1_lowlimitPC s) (mode1_highlimitPC s)
    (mode2_btn1PC s) (mode2_btn2PC s) (mode3_btn1PC1 s) (mode3_btn1PC2 s)
    (mode3_btn2PC1 s) (mode3_btn2PC2 s).

Definition set_midiChannel (v : Z) (s : settingsStruct) : settingsStruct :=
  mkSettings (sversion s) v (mode1_lowlimitPC s) (mode1_highlimitPC s)
    (mode2_btn1PC s) (mode2_btn2PC s) (mode3_btn1PC1 s) (mode3_btn1PC2 s)
    (mode3_btn2PC1 s) (mode3_btn2PC2 s).

Definition set_mode1_lowlimitPC (v : Z) (s : settingsStruct) : settingsStruct :=
  mkSettings (sversion s) (midiChannel s) v (mode1_highlimitPC s)
    (mode2_btn1PC s) (mode2_btn2PC s) (mode3_btn1PC1 s) (mode3_btn1PC2 s)
    (mode3_btn2PC1 s) (mode3_btn2PC2 s).

Definition set_mode1_highlimitPC (v : Z) (s : settingsStruct) : settingsStruct :=
  mkSettings (sversion s) (midiChannel s) (mode1_lowlimitPC s) v
    (mode2_btn1PC s) (mode2_btn2PC s) (mode3_btn1PC1 s) (mode3_btn1PC2 s)
    (mode3_btn2PC1 s) (mode3_btn2PC2 s).

Definition set_mode2_btn1PC (v : Z) (s : settingsStruct) : settingsStruct :=
  mkSettings (sversion s) (midiChannel s) (mode1_lowlimitPC s) (mode1_highlimitPC s)
    v (mode2_btn2PC s) (mode3_btn1PC1 s) (mode3_btn1PC2 s)
    (mode3_btn2PC1 s) (mode3_btn2PC2 s).

Definition set_mode2_btn2PC (v : Z) (s : settingsStruct) : settingsStruct :=
  mkSettings (sversion s) (midiChannel s) (mode1_lowlimitPC s) (mode1_highlimitPC s)
    (mode2_btn1PC s) v (mode3_btn1PC1 s) (mode3_btn1PC2 s)
    (mode3_btn2PC1 s) (mode3_btn2PC2 s).

Definition set_mode3_btn1PC1 (v : Z) (s : settingsStruct) : settingsStruct :=
  mkSettings (sversion s) (midiChannel s) (mode1_lowlimitPC s) (mode1_highlimitPC s)
    (mode2_btn1PC s) (mode2_btn2PC s) v (mode3_btn1PC2 s)
    (mode3_btn2PC1 s) (mode3_btn2PC2 s).

Definition set_mode3_btn1PC2 (v : Z) (s : settingsStruct) : settingsStruct :=
  mkSettings (sversion s) (midiChannel s) (mode1_lowlimitPC s) (mode1_highlimitPC s)
    (mode2_btn1PC s) (mode2_btn2PC s) (mode3_btn1PC1 s) v
    (mode3_btn2PC1 s) (mode3_btn2PC2 s).

Definition set_mode3_btn2PC1 (v : Z) (s : settingsStruct) : settingsStruct :=
  mkSettings (sversion s) (midiChannel s) (mode1_lowlimitPC s) (mode1_highlimitPC s)
    (mode2_btn1PC s) (mode2_btn2PC s) (mode3_btn1PC1 s) (mode3_btn1PC2 s)
    v (mode3_btn2PC2 s).

Definition set_mode3_btn2PC2 (v : Z) (s : settingsStruct) : settingsStruct :=
  mkSettings (sversion s) (midiChannel s) (mode1_lowlimitPC s) (mode1_highlimitPC s)
    (mode2_btn1PC s) (mode2_btn2PC s) (mode3_btn1PC1 s) (mode3_btn1PC2 s)
    (mode3_btn2PC1 s) v.

(** ** Libraries, as far as the sketch uses them *)

(** *** OneButton: attaching callbacks *)

Definition btn1_attachClick (f : callbackFunction) (m : Machine) : Machine :=
  set_btn1 (mkButton f (longPressStartFunc (btn1 m)) (longPressStopFunc (btn1 m))) m.

Definition btn2_attachClick (f : callbackFunction) (m : Machine) : Machine :=
  set_btn2 (mkButton f (longPressStartFunc (btn2 m)) (longPressStopFunc (btn2 m))) m.

Definition btn1_attachLongPressStart (f : callbackFunction) (m : Machine) : Machine :=
  set_btn1 (mkButton (clickFunc (btn1 m)) f (longPressStopFunc (btn1 m))) m.

Definition btn2_attachLongPressStart (f : callbackFunction) (m : Machine) : Machine :=
  set_btn2 (mkButton (clickFunc (btn2 m)) f (longPressStopFunc (btn2 m))) m.

Definition btn1_attachLongPressStop (f : callbackFunction) (m : Machine) : Machine :=
  set_btn1 (mkButton (clickFunc (btn1 m)) (longPressStartFunc (btn1 m)) f) m.

Definition btn2_attachLongPressStop (f : callbackFunction) (m : Machine) : Machine :=
  set_btn2 (mkButton (clickFunc (btn2 m)) (longPressStartFunc (btn2 m)) f) m.

(** *** EEPROM: [get] and [put] of a [settingsStruct]

    The struct is ten consecutive bytes starting at the address. *)

Definition EEPROM_get (e : nat -> Z) (a : nat) : settingsStruct :=
  mkSettings (e a) (e (a + 1)%nat) (e (a + 2)%nat) (e (a + 3)%nat) (e (a + 4)%nat)
    (e (a + 5)%nat) (e (a + 6)%nat) (e (a + 7)%nat) (e (a + 8)%nat) (e (a + 9)%nat).

Definition EEPROM_put (e : nat -> Z) (a : nat) (s : settingsStruct) : nat -> Z :=
  fun i =>
    if Nat.eqb i a then sversion s
    else if Nat.eqb i (a + 1) then midiChannel s
    else if Nat.eqb i (a + 2) then mode1_lowlimitPC s
    else if Nat.eqb i (a + 3) then mode1_highlimitPC s
    else if Nat.eqb i (a + 4) then mode2_btn1PC s
    else if Nat.eqb i (a + 5) then mode2_btn2PC s
    else if Nat.eqb i (a + 6) then mode3_btn1PC1 s
    else if Nat.eqb i (a + 7) then mode3_btn1PC2 s
    else if Nat.eqb i (a + 8) then mode3_btn2PC1 s
    else if Nat.eqb i (a + 9) then mode3_btn2PC2 s
    else e i.

(** *** Arduino [String] *)

(** [String(no)] for an [int]: decimal digits, with a leading minus sign. *)
Definition String_of_int (no : Z) : string := NilZero.string_of_int (Z.to_int no).

(** [strMsg.toCharArray(msg, 5)]: at most four characters and the terminator. *)
Definition toCharArray5 (strMsg : string) : string := substring 0 4 strMsg.

(** ** The sketch: display *)

(** [void updateDisplay(String str, int no)] *)
Definition updateDisplayNo (str : string) (no : Z) (m : Machine) : Machine :=
  let strMsg :=
    if no <? 10 then (substring 0 2 str ++ " " ++ String_of_int no)%string
    else if (no >=? 10) && (no <? 100) then (substring 0 2 str ++ String_of_int no)%string
    else (substring 0 1 str ++ String_of_int no)%string in
  emit (SetChars (toCharArray5 strMsg)) m.

(** [void updateDisplay(String str)] *)
Definition updateDisplay (str : string) (m : Machine) : Machine :=
  let strMsg := substring 0 4 str in
  emit (SetChars (toCharArray5 strMsg)) m.

(** ** The sketch: settings *)

Definition loadDefaultSettings (m : Machine) : Machine :=
  let m := set_settings (set_sversion CONFIG_VERSION (_settings m)) m in
  let m := set_settings (set_midiChannel 1 (_settings m)) m in
  let m := set_settings (set_mode1_lowlimitPC 0 (_settings m)) m in
  let m := set_settings (set_mode1_highlimitPC 16 (_settings m)) m in
  let m := set_settings (set_mode2_btn1PC 17 (_settings m)) m in
  let m := set_settings (set_mode2_btn2PC 18 (_settings m)) m in
  let m := set_settings (set_mode3_btn1PC1 19 (_settings m)) m in
  let m := set_settings (set_mode3_btn1PC2 20 (_settings m)) m in
  let m := set_settings (set_mode3_btn2PC1 21 (_settings m)) m in
  let m := set_settings (set_mode3_btn2PC2 22 (_settings m)) m in
  m.

Definition saveSettings (m : Machine) : Machine :=
  let m := set_EEPROM (EEPROM_put (EEPROM m) CONFIG_START_ADDRESS (_settings m)) m in
  emit (EepromPut (_settings m)) m.

Definition readSettings (m : Machine) : Machine :=
  let m := set_settings (EEPROM_get (EEPROM m) CONFIG_START_ADDRESS) m in
  if negb (sversion (_settings m) =? CONFIG_VERSION) then loadDefaultSettings m else m.

(** ** The sketch: entry and exit actions of the states

    They only attach callbacks and update the display, so they come before
    the callbacks themselves, which reach them through [trigger]. *)

(** [VERSION.toFloat() * 10] is 1 for the version string "0.1". *)
Definition on_init_enter (m : Machine) : Machine :=
  let ishowversion := 1 in
  emit (SetNumber ishowversion 1) m.

Definition on_run_enter (m : Machine) : Machine :=
  let m :=
    if run_mode m =? RUN_MODE1 then
      let m := btn1_attachClick fp_cyclePcDown m in
      btn2_attachClick fp_cyclePcUp m
    else if run_mode m =? RUN_MODE2 then
      let m := btn1_attachClick fp_sendBtn1PC m in
      btn2_attachClick fp_sendBtn2PC m
    else if run_mode m =? RUN_MODE3 then
      let m := btn1_attachClick fp_sendBtn1TogglePC m in
      btn2_attachClick fp_sendBtn2TogglePC m
    else m in
  let m := updateDisplayNo "op" (run_mode m) m in
  let m := btn1_attachLongPressStart fp_longPressStart1 m in
  let m := btn2_attachLongPressStart fp_longPressStart2 m in
  let m := btn1_attachLongPressStop fp_longPressFromRun m in
  btn2_attachLongPressStop fp_longPressFromRun m.

Definition on_setup_mode_enter (m : Machine) : Machine :=
  let m := btn1_attachClick fp_modeDown m in
  let m := btn2_attachClick fp_modeUp m in
  let m := btn1_attachLongPressStop fp_longPressFromSetupMode m in
  let m := btn2_attachLongPressStop fp_longPressFromSetupMode m in
  updateDisplay "s op" m.

Definition on_setup_midi_enter (m : Machine) : Machine :=
  let m := btn1_attachClick fp_midiChnDown m in
  let m := btn2_attachClick fp_midiChnUp m in
  let m := btn1_attachLongPressStop fp_longPressFromSetupMidi m in
  let m := btn2_attachLongPressStop fp_longPressFromSetupMidi m in
  updateDisplay "s nd" m.

Definition on_setup_mode1_enter (m : Machine) : Machine :=
  let m := btn1_attachClick fp_nullClick m in
  let m := btn2_attachClick fp_nullClick m in
  let m := btn1_attachLongPressStop fp_longPressFromSetupMode1 m in
  let m := btn2_attachLongPressStop fp_longPressFromSetupMode1 m in
  updateDisplay "s n1" m.

Definition on_setup_mode1_low_enter (m : Machine) : Machine :=
  let m := btn1_attachClick fp_mode1LowLimitDecrease m in
  let m := btn2_attachClick fp_mode1LowLimitIncrease m in
  let m := btn1_attachLongPressStop fp_longPressFromSetupMode1Low m in
  let m := btn2_attachLongPressStop fp_longPressFromSetupMode1Low m in
  updateDisplay "S LO" m.

(** Only [btn1] gets a new long-press-stop callback here. *)
Definition on_setup_mode1_hi_enter (m : Machine) : Machine :=
  let m := btn1_attachClick fp_mode1HiLimitDecrease m in
  let m := btn2_attachClick fp_mode1HiLimitIncrease m in
  let m := btn1_attachLongPressStop fp_longPressFromSetupMode1Hi m in
  updateDisplay "S HI" m.

Definition on_setup_mode2_enter (m : Machine) : Machine :=
  let m := btn1_attachClick fp_nullClick m in
  let m := btn2_attachClick fp_nullClick m in
  let m := btn1_attachLongPressStop fp_longPressFromSetupMode2 m in
  let m := btn2_attachLongPressStop fp_longPressFromSetupMode2 m in
  updateDisplay "s n2" m.

Definition on_setup_mode2_btn1_enter (m : Machine) : Machine :=
  let m := btn1_attachClick fp_mode2Btn1Decrease m in
  let m := btn2_attachClick fp_mode2Btn1Increase m in
  let m := btn1_attachLongPressStop fp_longPressFromSetupMode2Btn1 m in
  let m := btn2_attachLongPressStop fp_longPressFromSetupMode2Btn1 m in
  updateDisplay "s b1" m.

Definition on_setup_mode2_btn2_enter (m : Machine) : Machine :=
  let m := btn1_attachClick fp_mode2Btn2Decrease m in
  let m := btn2_attachClick fp_mode2Btn2Increase m in
  let m := btn1_attachLongPressStop fp_longPressFromSetupMode2Btn2 m in
  let m := btn2_attachLongPressStop fp_longPressFromSetupMode2Btn2 m in
  updateDisplay "s b2" m.

(** No click callback is attached here. *)
Definition on_setup_mode3_enter (m : Machine) : Machine :=
  let m := btn1_attachLongPressStop fp_longPressFromSetupMode3 m in
  let m := btn2_attachLongPressStop fp_longPressFromSetupMode3 m in
  updateDisplay "s n3" m.

Definition on_setup_mode3_btn1PC1_enter (m : Machine) : Machine := m.
Definition on_setup_mode3_btn1PC2_enter (m : Machine) : Machine := m.
Definition on_setup_mode3_btn2PC1_enter (m : Machine) : Machine := m.
Definition on_setup_mode3_btn2PC2_enter (m : Machine) : Machine := m.

(** No click callback is attached here either. *)
Definition on_setup_exit_enter (m : Machine) : Machine :=
  let m := btn1_attachLongPressStop fp_longPressToRun m in
  let m := btn2_attachLongPressStop fp_longPressToRun m in
  updateDisplay "set" m.

Definition on_setup_exit_exit (m : Machine) : Machine :=
  emit (Delay 2000) m.

(** The [State] objects: [State(on_enter, NULL, on_exit)]. *)
Definition on_enter (s : State) : Machine -> Machine :=
  match s with
  | state_init => on_init_enter
  | state_run => on_run_enter
  | state_setup_mode => on_setup_mode_enter
  | state_setup_midi => on_setup_midi_enter
  | state_setup_mode1 => on_setup_mode1_enter
  | state_setup_mode1_low => on_setup_mode1_low_enter
  | state_setup_mode1_hi => on_setup_mode1_hi_enter
  | state_setup_mode2_btn1 => on_setup_mode2_btn1_enter
  | state_setup_mode2_btn2 => on_setup_mode2_btn2_enter
  | state_setup_mode3_btn1PC1 => on_setup_mode3_btn1PC1_enter
  | state_setup_mode3_btn1PC2 => on_setup_mode3_btn1PC2_enter
  | state_setup_mode3_btn2PC1 => on_setup_mode3_btn2PC1_enter
  | state_setup_mode3_btn2PC2 => on_setup_mode3_btn2PC2_enter
  | state_setup_mode2 => on_setup_mode2_enter
  | state_setup_mode3 => on_setup_mode3_enter
  | state_setup_exit => on_setup_exit_enter
  end.

Definition on_exit (s : State) : Machine -> Machine :=
  match s with
  | state_setup_exit => on_setup_exit_exit
  | _ => fun m => m
  end.

(** ** The Fsm library, as far as the sketch uses it *)

(** The event transitions [setup()] registers, in registration order. *)
Definition transitions : list (State * State * Z) :=
  [ (state_run, state_setup_mode, TO_SETUP_MODE);
    (state_setup_mode, state_setup_midi, TO_SETUP_MIDI);
    (state_setup_mode, state_setup_exit, TO_SETUP_EXIT);
    (state_setup_midi, state_setup_mode1, TO_SETUP_MODE1);
    (state_setup_midi, state_setup_exit, TO_SETUP_EXIT);
    (state_setup_mode1, state_setup_mode2, TO_SETUP_MODE2);
    (state_setup_mode1, state_setup_mode1_low, TO_SETUP_MODE1_LOW);
    (state_setup_mode1_low, state_setup_mode1_hi, TO_SETUP_MODE1_HI);
    (state_setup_mode1_low, state_setup_exit, TO_SETUP_EXIT);
    (state_setup_mode1_hi, state_setup_mode2, TO_SETUP_MODE2);
    (state_setup_mode1_hi, state_setup_exit, TO_SETUP_EXIT);
    (state_setup_mode1, state_setup_exit, TO_SETUP_EXIT);
    (state_setup_mode2, state_setup_mode3, TO_SETUP_MODE3);
    (state_setup_mode2, state_setup_mode2_btn1, TO_SETUP_MODE2_BTN1);
    (state_setup_mode2_btn1, state_setup_mode2_btn2, TO_SETUP_MODE2_BTN2);
    (state_setup_mode2_btn1, state_setup_exit, TO_SETUP_EXIT);
    (state_setup_mode2_btn2, state_setup_mode3, TO_SETUP_MODE3);
    (state_setup_mode2_btn2, state_setup_exit, TO_SETUP_EXIT);
    (state_setup_mode3, state_setup_exit, TO_SETUP_EXIT);
    (state_setup_mode3, state_setup_mode, TO_SETUP_MODE_START);
    (state_setup_mode3, state_setup_mode3_btn1PC1, TO_SETUP_MODE3_BTN1_PC1);
    (state_setup_mode3_btn1PC1, state_setup_mode3_btn1PC2, TO_SETUP_MODE3_BTN1_PC2);
    (state_setup_mode3_btn1PC2, state_setup_mode3_btn2PC1, TO_SETUP_MODE3_BTN2_PC1);
    (state_setup_mode3_btn2PC1, state_setup_mode3_btn2PC2, TO_SETUP_MODE3_BTN2_PC2);
    (state_setup_mode3_btn2PC2, state_setup_exit, TO_SETUP_EXIT);
    (state_setup_exit, state_run, TO_RUN) ].

(** The first registered transition that leaves [from] on [event]. *)
Fixpoint find_transition (ts : list (State * State * Z)) (from : State) (event : Z)
  : option State :=
  match ts with
  | [] => None
  | (f, t, e) :: ts' =>
      if State_eqb f from && (e =? event) then Some t
      else find_transition ts' from event
  end.

Definition set_current_state (s : State) (m : Machine) : Machine :=
  set_main_fsm (mkFsm s (m_initialized (main_fsm m)) (timed_start (main_fsm m))) m.

(** [Fsm::make_transition]: exit action of the source, entry action of the
    target, then the target becomes current. *)
Definition make_transition (from to : State) (m : Machine) : Machine :=
  let m := on_exit from m in
  let m := on_enter to m in
  set_current_state to m.

(** [main_fsm.trigger(event)]: nothing before the first [run_machine]; then
    the first matching transition from the current state is made, and an
    event no transition matches is dropped. *)
Definition trigger (event : Z) (m : Machine) : Machine :=
  let m := emit (Trigger event) m in
  if m_initialized (main_fsm m) then
    match find_transition transitions (m_current_state (main_fsm m)) event with
    | Some to => make_transition (m_current_state (main_fsm m)) to m
    | None => m
    end
  else m.

(** ** The sketch: callbacks *)

(** *** Run mode 1 *)

Definition cyclePcDown (m : Machine) : Machine :=
  let m :=
    if mode1_currentPC m =? mode1_lowlimitPC (_settings m)
    then set_mode1_currentPC (mode1_highlimitPC (_settings m)) m
    else set_mode1_currentPC (int_wrap (mode1_currentPC m - 1)) m in
  let m := updateDisplayNo "PC" (mode1_currentPC m) m in
  emit (SendProgramChange (mode1_currentPC m) (midiChannel (_settings m))) m.

Definition cyclePcUp (m : Machine) : Machine :=
  let m :=
    if mode1_currentPC m =? mode1_highlimitPC (_settings m)
    then set_mode1_currentPC (mode1_lowlimitPC (_settings m)) m
    else set_mode1_currentPC (int_wrap (mode1_currentPC m + 1)) m in
  let m := updateDisplayNo "PC" (mode1_currentPC m) m in
  emit (SendProgramChange (mode1_currentPC m) (midiChannel (_settings m))) m.

(** *** Run mode 2 *)

Definition sendBtn1PC (m : Machine) : Machine :=
  let m := updateDisplayNo "PC" (mode2_btn1PC (_settings m)) m in
  emit (SendProgramChange (mode2_btn1PC (_settings m)) (midiChannel (_settings m))) m.

Definition sendBtn2PC (m : Machine) : Machine :=
  let m := updateDisplayNo "PC" (mode2_btn2PC (_settings m)) m in
  emit (SendProgramChange (mode2_btn2PC (_settings m)) (midiChannel (_settings m))) m.

(** *** Run mode 3 *)

Definition sendBtn1TogglePC (m : Machine) : Machine :=
  let m :=
    if mode3_current_btn1PC m =? mode3_btn1PC1 (_settings m)
    then set_mode3_current_btn1PC (mode3_btn1PC2 (_settings m)) m
    else set_mode3_current_btn1PC (mode3_btn1PC1 (_settings m)) m in
  let m := updateDisplayNo "PC" (mode3_current_btn1PC m) m in
  emit (SendProgramChange (mode3_current_btn1PC m) (midiChannel (_settings m))) m.

Definition sendBtn2TogglePC (m : Machine) : Machine :=
  let m :=
    if mode3_current_btn2PC m =? mode3_btn2PC1 (_settings m)
    then set_mode3_current_btn2PC (mode3_btn2PC2 (_settings m)) m
    else set_mode3_current_btn2PC (mode3_btn2PC1 (_settings m)) m in
  let m := updateDisplayNo "PC" (mode3_current_btn2PC m) m in
  emit (SendProgramChange (mode3_current_btn2PC m) (midiChannel (_settings m))) m.

(** *** Gesture latches *)

Definition longPressStart1 (m : Machine) : Machine := set_btn1_state 1 m.
Definition longPressStart2 (m : Machine) : Machine := set_btn2_state 1 m.

Definition longPressFromRun (m : Machine) : Machine :=
  let m :=
    if (btn1_state m =? 1) && (btn2_state m =? 1) then trigger TO_SETUP_MODE m
    else m in
  let m := set_btn2_state 0 m in
  set_btn1_state 0 m.

(** *** Setup: run mode *)

Definition modeDown (m : Machine) : Machine :=
  let m :=
    if run_mode m =? RUN_MODE1 then set_run_mode RUN_MODE3 m
    else if run_mode m >? RUN_MODE1 then set_run_mode (run_mode m - 1) m
    else m in
  updateDisplayNo "op" (run_mode m) m.

Definition modeUp (m : Machine) : Machine :=
  let m :=
    if run_mode m =? RUN_MODE3 then set_run_mode RUN_MODE1 m
    else if run_mode m <? RUN_MODE3 then set_run_mode (run_mode m + 1) m
    else m in
  updateDisplayNo "op" (run_mode m) m.

Definition longPressFromSetupMode (m : Machine) : Machine :=
  let m :=
    if (btn1_state m =? 1) && (btn2_state m =? 0) then trigger TO_SETUP_EXIT m
    else if (btn1_state m =? 0) && (btn2_state m =? 1) then trigger TO_SETUP_MIDI m
    else m in
  let m := set_btn2_state 0 m in
  set_btn1_state 0 m.

(** *** Setup: MIDI channel *)

Definition midiChnDown (m : Machine) : Machine :=
  let m :=
    if midiChannel (_settings m) =? 1
    then set_settings (set_midiChannel 16 (_settings m)) m
    else set_settings
           (set_midiChannel (byte_wrap (midiChannel (_settings m) - 1)) (_settings m)) m in
  updateDisplayNo "ch" (midiChannel (_settings m)) m.

Definition midiChnUp (m : Machine) : Machine :=
  let m :=
    if midiChannel (_settings m) =? 16
    then set_settings (set_midiChannel 1 (_settings m)) m
    else set_settings
           (set_midiChannel (byte_wrap (midiChannel (_settings m) + 1)) (_settings m)) m in
  updateDisplayNo "ch" (midiChannel (_settings m)) m.

Definition longPressFromSetupMidi (m : Machine) : Machine :=
  let m :=
    if (btn1_state m =? 1) && (btn2_state m =? 0) then trigger TO_SETUP_EXIT m
    else if (btn1_state m =? 0) && (btn2_state m =? 1) then trigger TO_SETUP_MODE1 m
    else m in
  let m := set_btn2_state 0 m in
  set_btn1_state 0 m.

(** *** Setup: mode 1 *)

Definition nullClick (m : Machine) : Machine := m.

Definition longPressFromSetupMode1 (m : Machine) : Machine :=
  let m :=
    if (btn1_state m =? 1) && (btn2_state m =? 1) then trigger TO_SETUP_MODE1_LOW m
    else if (btn1_state m =? 0) && (btn2_state m =? 1) then trigger TO_SETUP_MODE2 m
    else if (btn1_state m =? 1) && (btn2_state m =? 0) then trigger TO_SETUP_EXIT m
    else m in
  let m := set_btn2_state 0 m in
  set_btn1_state 0 m.

Definition mode1LowLimitDecrease (m : Machine) : Machine :=
  let m :=
    if mode1_lowlimitPC (_settings m) =? 0
    then set_settings (set_mode1_lowlimitPC 127 (_settings m)) m
    else set_settings
           (set_mode1_lowlimitPC (byte_wrap (mode1_lowlimitPC (_settings m) - 1))
              (_settings m)) m in
  updateDisplayNo "PC" (mode1_lowlimitPC (_settings m)) m.

Definition mode1LowLimitIncrease (m : Machine) : Machine :=
  let m :=
    if mode1_lowlimitPC (_settings m) =? 127
    then set_settings (set_mode1_lowlimitPC 0 (_settings m)) m
    else set_settings
           (set_mode1_lowlimitPC (byte_wrap (mode1_lowlimitPC (_settings m) + 1))
              (_settings m)) m in
  updateDisplayNo "PC" (mode1_lowlimitPC (_settings m)) m.

Definition longPressFromSetupMode1Low (m : Machine) : Machine :=
  let m :=
    if (btn1_state m =? 1) && (btn2_state m =? 0) then trigger TO_SETUP_EXIT m
    else if (btn1_state m =? 0) && (btn2_state m =? 1) then trigger TO_SETUP_MODE1_HI m
    else m in
  let m := set_btn2_state 0 m in
  set_btn1_state 0 m.

Definition mode1HiLimitDecrease (m : Machine) : Machine :=
  let m :=
    if mode1_highlimitPC (_settings m) =? 0
    then set_settings (set_mode1_highlimitPC 127 (_settings m)) m
    else set_settings
           (set_mode1_highlimitPC (byte_wrap (mode1_highlimitPC (_settings m) - 1))
              (_settings m)) m in
  updateDisplayNo "PC" (mode1_highlimitPC (_settings m)) m.

Definition mode1HiLimitIncrease (m : Machine) : Machine :=
  let m :=
    if mode1_highlimitPC (_settings m) =? 127
    then set_settings (set_mode1_highlimitPC 0 (_settings m)) m
    else set_settings
           (set_mode1_highlimitPC (byte_wrap (mode1_highlimitPC (_settings m) + 1))
              (_settings m)) m in
  updateDisplayNo "PC" (mode1_highlimitPC (_settings m)) m.

Definition longPressFromSetupMode1Hi (m : Machine) : Machine :=
  let m :=
    if (btn1_state m =? 1) && (btn2_state m =? 0) then trigger TO_SETUP_EXIT m
    else if (btn1_state m =? 1) && (btn2_state m =? 1) then trigger TO_SETUP_MODE2 m
    else m in
  let m := set_btn2_state 0 m in
  set_btn1_state 0 m.

(** *** Setup: mode 2 *)

Definition longPressFromSetupMode2 (m : Machine) : Machine :=
  let m :=
    if (btn1_state m =? 1) && (btn2_state m =? 0) then trigger TO_SETUP_EXIT m
    else if (btn1_state m =? 1) && (btn2_state m =? 1) then trigger TO_SETUP_MODE2_BTN1 m
    else m in
  let m := set_btn2_state 0 m in
  set_btn1_state 0 m.

Definition mode2Btn1Decrease (m : Machine) : Machine :=
  let m :=
    if mode2_btn1PC (_settings m) =? 0
    then set_settings (set_mode2_btn1PC 127 (_settings m)) m
    else set_settings
           (set_mode2_btn1PC (byte_wrap (mode2_btn1PC (_settings m) - 1)) (_settings m)) m in
  updateDisplayNo "PC" (mode2_btn1PC (_settings m)) m.

Definition mode2Btn1Increase (m : Machine) : Machine :=
  let m :=
    if mode2_btn1PC (_settings m) =? 127
    then set_settings (set_mode2_btn1PC 0 (_settings m)) m
    else set_settings
           (set_mode2_btn1PC (byte_wrap (mode2_btn1PC (_settings m) + 1)) (_settings m)) m in
  updateDisplayNo "PC" (mode2_btn1PC (_settings m)) m.

Definition longPressFromSetupMode2Btn1 (m : Machine) : Machine :=
  let m :=
    if (btn1_state m =? 1) && (btn2_state m =? 0) then trigger TO_SETUP_EXIT m
    else if (btn1_state m =? 1) && (btn2_state m =? 1) then trigger TO_SETUP_MODE2_BTN2 m
    else m in
  let m := set_btn2_state 0 m in
  set_btn1_state 0 m.

Definition mode2Btn2Decrease (m : Machine) : Machine :=
  let m :=
    if mode2_btn2PC (_settings m) =? 0
    then set_settings (set_mode2_btn2PC 127 (_settings m)) m
    else set_settings
           (set_mode2_btn2PC (byte_wrap (mode2_btn2PC (_settings m) - 1)) (_settings m)) m in
  updateDisplayNo "PC" (mode2_btn2PC (_settings m)) m.

Definition mode2Btn2Increase (m : Machine) : Machine :=
  let m :=
    if mode2_btn2PC (_settings m) =? 127
    then set_settings (set_mode2_btn2PC 0 (_settings m)) m
    else set_settings
           (set_mode2_btn2PC (byte_wrap (mode2_btn2PC (_settings m) + 1)) (_settings m)) m in
  updateDisplayNo "PC" (mode2_btn2PC (_settings m)) m.

Definition longPressFromSetupMode2Btn2 (m : Machine) : Machine :=
  let m :=
    if (btn1_state m =? 1) && (btn2_state m =? 0) then trigger TO_SETUP_EXIT m
    else if (btn1_state m =? 1) && (btn2_state m =? 1) then trigger TO_SETUP_MODE3 m
    else m in
  let m := set_btn2_state 0 m in
  set_btn1_state 0 m.

(** *** Setup: mode 3 and exit *)

Definition longPressFromSetupMode3 (m : Machine) : Machine :=
  let m :=
    if (btn1_state m =? 1) && (btn2_state m =? 0) then trigger TO_SETUP_EXIT m
    else if (btn1_state m =? 0) && (btn2_state m =? 1) then trigger TO_SETUP_MODE_START m
    else m in
  let m := set_btn2_state 0 m in
  set_btn1_state 0 m.

Definition longPressToRun (m : Machine) : Machine :=
  let m :=
    if (btn1_state m =? 1) && (btn2_state m =? 1) then
      let m := saveSettings m in
      let m := updateDisplay "save" m in
      trigger TO_RUN m
    else if (btn1_state m =? 1) && (btn2_state m =? 0) then
      let m := updateDisplay "ret" m in
      trigger TO_RUN m
    else m in
  let m := set_btn2_state 0 m in
  set_btn1_state 0 m.

(** Calling through a function pointer; an unattached slot is not called. *)
Definition call (f : callbackFunction) : Machine -> Machine :=
  match f with
  | NULL => fun m => m
  | fp_cyclePcDown => cyclePcDown
  | fp_cyclePcUp => cyclePcUp
  | fp_sendBtn1PC => sendBtn1PC
  | fp_sendBtn2PC => sendBtn2PC
  | fp_sendBtn1TogglePC => sendBtn1TogglePC
  | fp_sendBtn2TogglePC => sendBtn2TogglePC
  | fp_longPressStart1 => longPressStart1
  | fp_longPressStart2 => longPressStart2
  | fp_longPressFromRun => longPressFromRun
  | fp_modeDown => modeDown
  | fp_modeUp => modeUp
  | fp_longPressFromSetupMode => longPressFromSetupMode
  | fp_midiChnDown => midiChnDown
  | fp_midiChnUp => midiChnUp
  | fp_longPressFromSetupMidi => longPressFromSetupMidi
  | fp_nullClick => nullClick
  | fp_longPressFromSetupMode1 => longPressFromSetupMode1
  | fp_mode1LowLimitDecrease => mode1LowLimitDecrease
  | fp_mode1LowLimitIncrease => mode1LowLimitIncrease
  | fp_longPressFromSetupMode1Low => longPressFromSetupMode1Low
  | fp_mode1HiLimitDecrease => mode1HiLimitDecrease
  | fp_mode1HiLimitIncrease => mode1HiLimitIncrease
  | fp_longPressFromSetupMode1Hi => longPressFromSetupMode1Hi
  | fp_longPressFromSetupMode2 => longPressFromSetupMode2
  | fp_mode2Btn1Decrease => mode2Btn1Decrease
  | fp_mode2Btn1Increase => mode2Btn1Increase
  | fp_longPressFromSetupMode2Btn1 => longPressFromSetupMode2Btn1
  | fp_mode2Btn2Decrease => mode2Btn2Decrease
  | fp_mode2Btn2Increase => mode2Btn2Increase
  | fp_longPressFromSetupMode2Btn2 => longPressFromSetupMode2Btn2
  | fp_longPressFromSetupMode3 => longPressFromSetupMode3
  | fp_longPressToRun => longPressToRun
  end.

(** ** The sketch: [setup()] and [loop()] *)

(** The globals at power-on: zero-initialised, no callback attached, the
    Fsm constructed on [state_init]; [e] is what the EEPROM holds. *)
Definition power_on (e : nat -> Z) : Machine :=
  mkMachine (mkSettings 0 0 0 0 0 0 0 0 0 0) 0 0 0 0 0 0
    (mkButton NULL NULL NULL) (mkButton NULL NULL NULL)
    (mkFsm state_init false 0) e [].

(** [setup()]; the transition table it registers is [transitions], and
    [setDisplay()] only configures the display hardware. *)
Definition setup (m : Machine) : Machine :=
  let m := readSettings m in
  let m := emit (MidiBegin (midiChannel (_settings m))) m in
  let m := set_mode1_currentPC (mode1_lowlimitPC (_settings m)) m in
  let m := set_mode3_current_btn1PC (mode3_btn1PC1 (_settings m)) m in
  let m := set_mode3_current_btn2PC (mode3_btn2PC1 (_settings m)) m in
  set_run_mode RUN_MODE1 m.

(** [Fsm::check_timed_transitions] for the one timed transition
    [state_init -> state_run]; [now] is [millis()], an [unsigned long]. *)
Definition check_timed_transitions (now : Z) (m : Machine) : Machine :=
  if State_eqb (m_current_state (main_fsm m)) state_init then
    if timed_start (main_fsm m) =? 0 then
      set_main_fsm (mkFsm (m_current_state (main_fsm m))
                      (m_initialized (main_fsm m)) now) m
    else if (now - timed_start (main_fsm m)) mod 2 ^ 32 >=? INIT_SHOWTIME then
      let m := make_transition state_init state_run m in
      set_main_fsm (mkFsm (m_current_state (main_fsm m))
                      (m_initialized (main_fsm m)) 0) m
    else m
  else m.

(** [main_fsm.run_machine()]: the first call runs the entry action of the
    initial state; no state of the sketch has an [on_state] action. *)
Definition run_machine (now : Z) (m : Machine) : Machine :=
  let m :=
    if m_initialized (main_fsm m) then m
    else
      let m := set_main_fsm (mkFsm (m_current_state (main_fsm m)) true
                               (timed_start (main_fsm m))) m in
      on_enter (m_current_state (main_fsm m)) m in
  check_timed_transitions now m.

Inductive Button : Type := Btn1 | Btn2.

(** What one pass of [loop()] can do: [btnN.tick()] reports at most one
    gesture of its button and calls the callback attached for it, then
    [main_fsm.run_machine()] runs at time [now]. *)
Inductive Event : Type :=
| Click (b : Button)
| LongPressStart (b : Button)
| LongPressStop (b : Button)
| RunMachine (now : Z).

Definition button (b : Button) (m : Machine) : OneButton :=
  match b with Btn1 => btn1 m | Btn2 => btn2 m end.

Definition step (m : Machine) (e : Event) : Machine :=
  match e with
  | Click b => call (clickFunc (button b m)) m
  | LongPressStart b => call (longPressStartFunc (button b m)) m
  | LongPressStop b => call (longPressStopFunc (button b m)) m
  | RunMachine now => run_machine now m
  end.

Definition run_events (m : Machine) (es : list Event) : Machine :=
  fold_left step es m.

(** The machines the device can be in: after [setup()] on any EEPROM
    content, and after any further event. *)
Inductive reachable : Machine -> Prop :=
| reachable_setup (e : nat -> Z) : reachable (setup (power_on e))
| reachable_step (m : Machine) (ev : Event) :
    reachable m -> reachable (step m ev).

(** ** Observations on a machine *)

Definition current_state (m : Machine) : State := m_current_state (main_fsm m).

(** The settings handed to [EEPROM.put], newest first. *)
Fixpoint saved (t : list Output) : list settingsStruct :=
  match t with
  | [] => []
  | EepromPut s :: t' => s :: saved t'
  | _ :: t' => saved t'
  end.

(** The trigger codes handed to [main_fsm.trigger], newest first. *)
Fixpoint triggers (t : list Output) : list Z :=
  match t with
  | [] => []
  | Trigger e :: t' => e :: triggers t'
  | _ :: t' => triggers t'
  end.

(** The program numbers handed to [MIDI.sendProgramChange], newest first. *)
Fixpoint programs (t : list Output) : list Z :=
  match t with
  | [] => []
  | SendProgramChange pc _ :: t' => pc :: programs t'
  | _ :: t' => programs t'
  end.

(** The callbacks that are attached as click callbacks somewhere. *)
Definition is_click (f : callbackFunction) : bool :=
  match f with
  | fp_cyclePcDown | fp_cyclePcUp | fp_sendBtn1PC | fp_sendBtn2PC
  | fp_sendBtn1TogglePC | fp_sendBtn2TogglePC | fp_modeDown | fp_modeUp
  | fp_midiChnDown | fp_midiChnUp | fp_nullClick
  | fp_mode1LowLimitDecrease | fp_mode1LowLimitIncrease
  | fp_mode1HiLimitDecrease | fp_mode1HiLimitIncrease
  | fp_mode2Btn1Decrease | fp_mode2Btn1Increase
  | fp_mode2Btn2Decrease | fp_mode2Btn2Increase => true
  | _ => false
  end.

(** The long-press-stop callbacks of [btn1] and [btn2] while a state is
    current.  [state_setup_mode1_hi] is entered from [state_setup_mode1_low]
    only and leaves [btn2] with the callback of that state; the four
    [state_setup_mode3_btn...] states are never current. *)
Definition stop_callbacks (s : State) : option (callbackFunction * callbackFunction) :=
  match s with
  | state_init => Some (NULL, NULL)
  | state_run => Some (fp_longPressFromRun, fp_longPressFromRun)
  | state_setup_mode => Some (fp_longPressFromSetupMode, fp_longPressFromSetupMode)
  | state_setup_midi => Some (fp_longPressFromSetupMidi, fp_longPressFromSetupMidi)
  | state_setup_mode1 => Some (fp_longPressFromSetupMode1, fp_longPressFromSetupMode1)
  | state_setup_mode1_low =>
      Some (fp_longPressFromSetupMode1Low, fp_longPressFromSetupMode1Low)
  | state_setup_mode1_hi =>
      Some (fp_longPressFromSetupMode1Hi, fp_longPressFromSetupMode1Low)
  | state_setup_mode2 => Some (fp_longPressFromSetupMode2, fp_longPressFromSetupMode2)
  | state_setup_mode2_btn1 =>
      Some (fp_longPressFromSetupMode2Btn1, fp_longPressFromSetupMode2Btn1)
  | state_setup_mode2_btn2 =>
      Some (fp_longPressFromSetupMode2Btn2, fp_longPressFromSetupMode2Btn2)
  | state_setup_mode3 => Some (fp_longPressFromSetupMode3, fp_longPressFromSetupMode3)
  | state_setup_exit => Some (fp_longPressToRun, fp_longPressToRun)
  | state_setup_mode3_btn1PC1 | state_setup_mode3_btn1PC2
  | state_setup_mode3_btn2PC1 | state_setup_mode3_btn2PC2 => None
  end.

(** What holds of every machine [setup()] and the events can produce. *)
Record wired (m : Machine) : Prop := mkWired {
  w_stop :
    stop_callbacks (current_state m)
    = Some (longPressStopFunc (btn1 m), longPressStopFunc (btn2 m));
  w_click1 : clickFunc (btn1 m) = NULL \/ is_click (clickFunc (btn1 m)) = true;
  w_click2 : clickFunc (btn2 m) = NULL \/ is_click (clickFunc (btn2 m)) = true;
  w_init :
    current_state m = state_init ->
    longPressStartFunc (btn1 m) = NULL /\ longPressStartFunc (btn2 m) = NULL
    /\ btn1_state m = 0 /\ btn2_state m = 0;
  w_past_init :
    current_state m <> state_init ->
    longPressStartFunc (btn1 m) = fp_longPressStart1
    /\ longPressStartFunc (btn2 m) = fp_longPressStart2
    /\ m_initialized (main_fsm m) = true;
  w_latch1 : btn1_state m = 0 \/ btn1_state m = 1;
  w_latch2 : btn2_state m = 0 \/ btn2_state m = 1;
  w_version : sversion (_settings m) = CONFIG_VERSION;
  w_run_mode : run_mode m = RUN_MODE1 \/ run_mode m = RUN_MODE2 \/ run_mode m = RUN_MODE3
}.

(** ** Gestures and example machines *)

Definition other (b : Button) : Button :=
  match b with Btn1 => Btn2 | Btn2 => Btn1 end.

(** One button held long and released. *)
Definition long_press_only (b : Button) : list Event :=
  [LongPressStart b; LongPressStop b].

(** Both buttons held long; [first] is the one released first. *)
Definition long_press_both (first : Button) : list Event :=
  [LongPressStart Btn1; LongPressStart Btn2;
   LongPressStop first; LongPressStop (other first)].

(** The states current after each event of [es], oldest first. *)
Fixpoint visited (m : Machine) (es : list Event) : list State :=
  match es with
  | [] => []
  | e :: es' => current_state (step m e) :: visited (step m e) es'
  end.

(** An erased EEPROM. *)
Definition blank_eeprom : nat -> Z := fun _ => 255.

(** An EEPROM with a current settings block whose mode 1 limits are
    low = 10 and high = 5. *)
Definition swapped_limits_eeprom : nat -> Z :=
  fun a => nth a [1; 1; 10; 5; 17; 18; 19; 20; 21; 22] 255.

(** Power-on with an erased EEPROM, the splash screen shown and over. *)
Definition booted : Machine :=
  run_events (setup (power_on blank_eeprom)) [RunMachine 1; RunMachine 3001].

Definition booted_swapped : Machine :=
  run_events (setup (power_on swapped_limits_eeprom)) [RunMachine 1; RunMachine 3001].

(** In [state_setup_mode1_low], by the setup menu. *)
Definition at_setup_mode1_low : Machine :=
  run_events booted
    (long_press_both Btn1 ++ long_press_only Btn2 ++ long_press_only Btn2
     ++ long_press_both Btn1).

(** In [state_setup_mode1_hi]. *)
Definition at_setup_mode1_hi : Machine :=
  run_events at_setup_mode1_low (long_press_only Btn2).

(** Back in [state_run] after one click on "low limit up", not saved. *)
Definition low_limit_raised : Machine :=
  run_events at_setup_mode1_low
    ([Click Btn2] ++ long_press_only Btn1 ++ long_press_only Btn1).

(** In [state_setup_exit] with both buttons held long. *)
Definition at_setup_exit_both_held : Machine :=
  run_events booted
    (long_press_both Btn1 ++ long_press_only Btn1
     ++ [LongPressStart Btn1; LongPressStart Btn2]).

(** ** Properties the theorems speak about *)

Definition valid_run_mode (m : Machine) : Prop :=
  run_mode m = RUN_MODE1 \/ run_mode m = RUN_MODE2 \/ run_mode m = RUN_MODE3.

(** An entry action sets both click callbacks, whatever was attached
    before; the callbacks may depend on the run mode. *)
Definition rebinds_clicks (enter : Machine -> Machine) : Prop :=
  exists f1 f2 : Z -> callbackFunction,
    forall m, valid_run_mode m ->
      clickFunc (btn1 (enter m)) = f1 (run_mode m)
      /\ clickFunc (btn2 (enter m)) = f2 (run_mode m).

(** An entry action sets the long-press-stop callback of both buttons to
    one and the same classifier, whatever was attached before. *)
Definition rebinds_stops (enter : Machine -> Machine) : Prop :=
  exists k : callbackFunction,
    forall m, longPressStopFunc (btn1 (enter m)) = k
              /\ longPressStopFunc (btn2 (enter m)) = k.

Definition is_display (o : Output) : bool :=
  match o with
  | SetChars _ | SetNumber _ _ => true
  | _ => false
  end.

(** An entry action hands exactly one thing to the display. *)
Definition updates_display (enter : Machine -> Machine) : Prop :=
  forall m, exists o, is_display o = true /\ trace (enter m) = o :: trace m.

Definition entry_contract (s : State) : Prop :=
  rebinds_clicks (on_enter s) /\ rebinds_stops (on_enter s)
  /\ updates_display (on_enter s).

(** Both mode 1 callbacks move [mode1_currentPC] by one, without wrapping. *)
Definition never_wraps (m : Machine) : Prop :=
  mode1_currentPC (cyclePcDown m) = mode1_currentPC m - 1
  /\ mode1_currentPC (cyclePcUp m) = mode1_currentPC m + 1.

Definition program_number (z : Z) : Prop := 0 <= z <= 127.

(** The bounds of the MIDI contract on a machine. *)
Definition self_bounded (m : Machine) : Prop :=
  program_number (mode1_currentPC m)
  /\ Forall program_number (programs (trace m))
  /\ 1 <= midiChannel (_settings m) <= 16.

(** Every field of a settings record within its documented range. *)
Definition fields_in_range (s : settingsStruct) : Prop :=
  1 <= midiChannel s <= 16
  /\ program_number (mode1_lowlimitPC s) /\ program_number (mode1_highlimitPC s)
  /\ program_number (mode2_btn1PC s) /\ program_number (mode2_btn2PC s)
  /\ program_number (mode3_btn1PC1 s) /\ program_number (mode3_btn1PC2 s)
  /\ program_number (mode3_btn2PC1 s) /\ program_number (mode3_btn2PC2 s).

(** [mode1_currentPC] between the two limits of mode 1. *)
Definition cycle_in_range (m : Machine) : Prop :=
  mode1_lowlimitPC (_settings m) <= mode1_currentPC m
  <= mode1_highlimitPC (_settings m).

(** The four callbacks that edit a limit of mode 1. *)
Definition is_limit_edit (f : callbackFunction) : bool :=
  match f with
  | fp_mode1LowLimitDecrease | fp_mode1LowLimitIncrease
  | fp_mode1HiLimitDecrease | fp_mode1HiLimitIncrease => true
  | _ => false
  end.

(** The mode 3 click callback of a button, the value it toggles and the two
    values configured for it. *)
Definition sendTogglePC (b : Button) : Machine -> Machine :=
  match b with Btn1 => sendBtn1TogglePC | Btn2 => sendBtn2TogglePC end.

Definition mode3_current (b : Button) (m : Machine) : Z :=
  match b with Btn1 => mode3_current_btn1PC m | Btn2 => mode3_current_btn2PC m end.

Definition mode3_PC1 (b : Button) (s : settingsStruct) : Z :=
  match b with Btn1 => mode3_btn1PC1 s | Btn2 => mode3_btn2PC1 s end.

Definition mode3_PC2 (b : Button) (s : settingsStruct) : Z :=
  match b with Btn1 => mode3_btn1PC2 s | Btn2 => mode3_btn2PC2 s end.

(** ** Further observations *)

(** The program number and channel of each [MIDI.sendProgramChange], newest
    first. *)
Fixpoint program_changes (t : list Output) : list (Z * Z) :=
  match t with
  | [] => []
  | SendProgramChange pc ch :: t' => (pc, ch) :: program_changes t'
  | _ :: t' => program_changes t'
  end.

(** The click callbacks that send a Program Change. *)
Definition is_send (f : callbackFunction) : bool :=
  match f with
  | fp_cyclePcDown | fp_cyclePcUp | fp_sendBtn1PC | fp_sendBtn2PC
  | fp_sendBtn1TogglePC | fp_sendBtn2TogglePC => true
  | _ => false
  end.

(** The click callbacks [on_run_enter] attaches for a run mode. *)
Definition run_clicks (rm : Z) : callbackFunction * callbackFunction :=
  if rm =? RUN_MODE1 then (fp_cyclePcDown, fp_cyclePcUp)
  else if rm =? RUN_MODE2 then (fp_sendBtn1PC, fp_sendBtn2PC)
  else (fp_sendBtn1TogglePC, fp_sendBtn2TogglePC).

(** The click callbacks of [btn1] and [btn2] while a state is current, where
    the state decides them.  [state_setup_mode3] is entered from
    [state_setup_mode2_btn2] only and attaches none, so it keeps those;
    [state_setup_exit] keeps the ones of the state it was entered from. *)
Definition click_callbacks (s : State) (rm : Z)
  : option (callbackFunction * callbackFunction) :=
  match s with
  | state_init => Some (NULL, NULL)
  | state_run => Some (run_clicks rm)
  | state_setup_mode => Some (fp_modeDown, fp_modeUp)
  | state_setup_midi => Some (fp_midiChnDown, fp_midiChnUp)
  | state_setup_mode1 | state_setup_mode2 => Some (fp_nullClick, fp_nullClick)
  | state_setup_mode1_low => Some (fp_mode1LowLimitDecrease, fp_mode1LowLimitIncrease)
  | state_setup_mode1_hi => Some (fp_mode1HiLimitDecrease, fp_mode1HiLimitIncrease)
  | state_setup_mode2_btn1 => Some (fp_mode2Btn1Decrease, fp_mode2Btn1Increase)
  | state_setup_mode2_btn2 | state_setup_mode3 =>
      Some (fp_mode2Btn2Decrease, fp_mode2Btn2Increase)
  | state_setup_exit
  | state_setup_mode3_btn1PC1 | state_setup_mode3_btn1PC2
  | state_setup_mode3_btn2PC1 | state_setup_mode3_btn2PC2 => None
  end.

(** The click callbacks are those of the current state; where the state
    does not decide them, they are none of the sending ones. *)
Definition clicks_wired (m : Machine) : Prop :=
  match click_callbacks (current_state m) (run_mode m) with
  | Some p => (clickFunc (btn1 m), clickFunc (btn2 m)) = p
  | None => is_send (clickFunc (btn1 m)) = false
            /\ is_send (clickFunc (btn2 m)) = false
  end.

(** Where a long-press-stop leads: [s] is current, [released] is the button
    let go, [l1] and [l2] are the two latches. *)
Definition nav (s : State) (released : Button) (l1 l2 : Z) : State :=
  let both := (l1 =? 1) && (l2 =? 1) in
  let only1 := (l1 =? 1) && (l2 =? 0) in
  let only2 := (l1 =? 0) && (l2 =? 1) in
  match s with
  | state_run => if both then state_setup_mode else s
  | state_setup_mode =>
      if only1 then state_setup_exit else if only2 then state_setup_midi else s
  | state_setup_midi =>
      if only1 then state_setup_exit else if only2 then state_setup_mode1 else s
  | state_setup_mode1 =>
      if both then state_setup_mode1_low
      else if only2 then state_setup_mode2
      else if only1 then state_setup_exit else s
  | state_setup_mode1_low =>
      if only1 then state_setup_exit else if only2 then state_setup_mode1_hi else s
  | state_setup_mode1_hi =>
      if only1 then state_setup_exit
      else match released with
           | Btn1 => if both then state_setup_mode2 else s
           | Btn2 => s
           end
  | state_setup_mode2 => if both then state_setup_mode2_btn1 else s
  | state_setup_mode2_btn1 =>
      if only1 then state_setup_exit else if both then state_setup_mode2_btn2 else s
  | state_setup_mode2_btn2 =>
      if only1 then state_setup_exit else if both then state_setup_mode3 else s
  | state_setup_mode3 =>
      if only1 then state_setup_exit else if only2 then state_setup_mode else s
  | state_setup_exit => if both || only1 then state_run else s
  | _ => s
  end.

(** The setup screens from which a transition on [TO_SETUP_EXIT] is
    registered: all but [state_setup_mode2]. *)
Definition setup_screens : list State :=
  [state_setup_mode; state_setup_midi; state_setup_mode1; state_setup_mode1_low;
   state_setup_mode1_hi; state_setup_mode2_btn1; state_setup_mode2_btn2;
   state_setup_mode3].

(** The four states without entry action, callbacks or way in. *)
Definition placeholders : list State :=
  [state_setup_mode3_btn1PC1; state_setup_mode3_btn1PC2;
   state_setup_mode3_btn2PC1; state_setup_mode3_btn2PC2].

Definition is_byte (z : Z) : Prop := 0 <= z <= 255.

(** Every field of a settings record fits its [byte]. *)
Definition settings_bytes (s : settingsStruct) : Prop :=
  is_byte (sversion s) /\ is_byte (midiChannel s)
  /\ is_byte (mode1_lowlimitPC s) /\ is_byte (mode1_highlimitPC s)
  /\ is_byte (mode2_btn1PC s) /\ is_byte (mode2_btn2PC s)
  /\ is_byte (mode3_btn1PC1 s) /\ is_byte (mode3_btn1PC2 s)
  /\ is_byte (mode3_btn2PC1 s) /\ is_byte (mode3_btn2PC2 s).

(** No text handed to [segDisp.setChars] is longer than the four digits of
    the display. *)
Definition short_texts (t : list Output) : Prop :=
  Forall (fun o => match o with
                   | SetChars msg => (String.length msg <= 4)%nat
                   | _ => True
                   end) t.

(** The four pairs of callbacks that edit a program number of the settings,
    each with the field it edits. *)
Inductive PcField : Type := Mode1Low | Mode1High | Mode2Btn1 | Mode2Btn2.

Definition pc_field (k : PcField) (s : settingsStruct) : Z :=
  match k with
  | Mode1Low => mode1_lowlimitPC s
  | Mode1High => mode1_highlimitPC s
  | Mode2Btn1 => mode2_btn1PC s
  | Mode2Btn2 => mode2_btn2PC s
  end.

Definition pc_decrease (k : PcField) : Machine -> Machine :=
  match k with
  | Mode1Low => mode1LowLimitDecrease
  | Mode1High => mode1HiLimitDecrease
  | Mode2Btn1 => mode2Btn1Decrease
  | Mode2Btn2 => mode2Btn2Decrease
  end.

Definition pc_increase (k : PcField) : Machine -> Machine :=
  match k with
  | Mode1Low => mode1LowLimitIncrease
  | Mode1High => mode1HiLimitIncrease
  | Mode2Btn1 => mode2Btn1Increase
  | Mode2Btn2 => mode2Btn2Increase
  end.

(** In [state_setup_mode], on the splash screen and in [state_setup_mode3],
    for the examples. *)
Definition at_setup_mode : Machine := run_events booted (long_press_both Btn1).

Definition at_init : Machine := step (setup (power_on blank_eeprom)) (RunMachine 1).

Definition at_setup_mode3 : Machine :=
  run_events at_setup_mode1_hi
    (long_press_both Btn1 ++ long_press_both Btn1 ++ long_press_both Btn1
     ++ long_press_both Btn1).

(** The number of characters of [String(n)] is the number of decimal digits
    of [n], for one value below 1000. *)
Definition digits_ok (n : nat) : bool :=
  Nat.eqb (String.length (String_of_int (Z.of_nat n)))
    (if Nat.ltb n 10 then 1 else if Nat.ltb n 100 then 2 else 3).

(** ** What each state stands for *)

(** The combo classifier the sketch writes for a state: the
    [longPressFrom...] function named after it, [longPressToRun] for
    [state_setup_exit]; [state_init] and the placeholders have none. *)
Definition state_classifier (s : State) : option callbackFunction :=
  match s with
  | state_run => Some fp_longPressFromRun
  | state_setup_mode => Some fp_longPressFromSetupMode
  | state_setup_midi => Some fp_longPressFromSetupMidi
  | state_setup_mode1 => Some fp_longPressFromSetupMode1
  | state_setup_mode1_low => Some fp_longPressFromSetupMode1Low
  | state_setup_mode1_hi => Some fp_longPressFromSetupMode1Hi
  | state_setup_mode2 => Some fp_longPressFromSetupMode2
  | state_setup_mode2_btn1 => Some fp_longPressFromSetupMode2Btn1
  | state_setup_mode2_btn2 => Some fp_longPressFromSetupMode2Btn2
  | state_setup_mode3 => Some fp_longPressFromSetupMode3
  | state_setup_exit => Some fp_longPressToRun
  | state_init
  | state_setup_mode3_btn1PC1 | state_setup_mode3_btn1PC2
  | state_setup_mode3_btn2PC1 | state_setup_mode3_btn2PC2 => None
  end.

(** What a click on button 1 and on button 2 means in a state: in
    [state_run] the action of the run mode, in an editing screen "down" and
    "up" of the value the screen edits, in the two menu screens of mode 1 and
    mode 2 nothing.  The sketch gives clicks no meaning of their own in
    [state_setup_mode3], [state_setup_exit], [state_init] and the
    placeholders. *)
Definition state_clicks (s : State) (rm : Z)
  : option (callbackFunction * callbackFunction) :=
  match s with
  | state_run =>
      Some (if rm =? RUN_MODE1 then (fp_cyclePcDown, fp_cyclePcUp)
            else if rm =? RUN_MODE2 then (fp_sendBtn1PC, fp_sendBtn2PC)
            else (fp_sendBtn1TogglePC, fp_sendBtn2TogglePC))
  | state_setup_mode => Some (fp_modeDown, fp_modeUp)
  | state_setup_midi => Some (fp_midiChnDown, fp_midiChnUp)
  | state_setup_mode1 => Some (fp_nullClick, fp_nullClick)
  | state_setup_mode1_low => Some (fp_mode1LowLimitDecrease, fp_mode1LowLimitIncrease)
  | state_setup_mode1_hi => Some (fp_mode1HiLimitDecrease, fp_mode1HiLimitIncrease)
  | state_setup_mode2 => Some (fp_nullClick, fp_nullClick)
  | state_setup_mode2_btn1 => Some (fp_mode2Btn1Decrease, fp_mode2Btn1Increase)
  | state_setup_mode2_btn2 => Some (fp_mode2Btn2Decrease, fp_mode2Btn2Increase)
  | state_setup_mode3 | state_setup_exit | state_init
  | state_setup_mode3_btn1PC1 | state_setup_mode3_btn1PC2
  | state_setup_mode3_btn2PC1 | state_setup_mode3_btn2PC2 => None
  end.

(** The status code of a state on the display; [state_run] shows the run
    mode.  [state_init] shows a number instead, the placeholders nothing. *)
Definition status_code (s : State) (rm : Z) : option string :=
  match s with
  | state_run =>
      Some (if rm =? RUN_MODE1 then "op 1"%string
            else if rm =? RUN_MODE2 then "op 2"%string else "op 3"%string)
  | state_setup_mode => Some "s op"%string
  | state_setup_midi => Some "s nd"%string
  | state_setup_mode1 => Some "s n1"%string
  | state_setup_mode1_low => Some "S LO"%string
  | state_setup_mode1_hi => Some "S HI"%string
  | state_setup_mode2 => Some "s n2"%string
  | state_setup_mode2_btn1 => Some "s b1"%string
  | state_setup_mode2_btn2 => Some "s b2"%string
  | state_setup_mode3 => Some "s n3"%string
  | state_setup_exit => Some "set"%string
  | state_init
  | state_setup_mode3_btn1PC1 | state_setup_mode3_btn1PC2
  | state_setup_mode3_btn2PC1 | state_setup_mode3_btn2PC2 => None
  end.

(** The entry action of [s] leaves in the click slots of both buttons the
    callbacks that click means in [s]. *)
Definition binds_clicks_of (s : State) : Prop :=
  forall m, valid_run_mode m ->
    Some (clickFunc (btn1 (on_enter s m)), clickFunc (btn2 (on_enter s m)))
    = state_clicks s (run_mode m).

(** The entry action of [s] leaves the classifier of [s] in the
    long-press-stop slot of a button. *)
Definition binds_stop_of (s : State) (b : Button) : Prop :=
  forall m, Some (longPressStopFunc (button b (on_enter s m))) = state_classifier s.

(** The entry action of [s] hands the status code of [s], and nothing else,
    to the display. *)
Definition shows_status_of (s : State) : Prop :=
  forall m, valid_run_mode m ->
    exists code, status_code s (run_mode m) = Some code
                 /\ trace (on_enter s m) = SetChars code :: trace m.

(** * Proofs *)

(** ** Proof support *)

(** Unfolds the sketch and leaves integer tests on unknown values folded. *)
Ltac reduce_machine :=
  cbv -[Z.eqb Z.ltb Z.gtb Z.geb Z.add Z.sub Z.modulo Z.pow Z.opp
        Z.le Z.lt Z.ge Z.gt Z.compare
        String_of_int substring append int_wrap byte_wrap];
  cbn.

Ltac break_if :=
  match goal with
  | |- context [if ?c then _ else _] =>
      lazymatch c with
      | context [if _ then _ else _] => fail
      | _ => destruct c eqn:?
      end
  end.

Ltac crunch := reduce_machine; repeat (break_if; reduce_machine).

(** Splits conjunctions only, so that no equation is closed by conversion. *)
Ltac split_all := repeat match goal with |- _ /\ _ => split end.

Ltac open_machine m :=
  destruct m as [[sv mc lo hi p1 p2 a1 a2 b1 b2] c1 c3a c3b l1 l2 rm
                 [k1 s1 q1] [k2 s2 q2] [cur ini ts] ee tr].

Ltac open_wired H :=
  destruct H as [Hstop Hc1 Hc2 Hinit Hpast Hl1 Hl2 Hv Hrm];
  cbn in Hstop, Hc1, Hc2, Hinit, Hpast, Hl1, Hl2, Hv, Hrm.

(** The three parts of [entry_contract] for an entry action that attaches
    [f1], [f2] and [k] and shows a text. *)
Ltac constant_entry f1 f2 k :=
  unfold entry_contract, rebinds_clicks, rebinds_stops, updates_display;
  split_all;
  [ exists (fun _ => f1), (fun _ => f2); intros m _; open_machine m;
    split; reflexivity
  | exists k; intros m; open_machine m; split; reflexivity
  | intros m; open_machine m; eexists; (split; [|reflexivity]); reflexivity ].

Lemma wired_setup (e : nat -> Z) : wired (setup (power_on e)).
Proof.
  constructor; crunch; auto; try congruence.
  apply Z.eqb_eq; assumption.
Qed.

Lemma wired_click (m : Machine) (b : Button) :
  wired m -> wired (step m (Click b)).
Proof.
  open_machine m. intros H; open_wired H.
  destruct Hrm as [-> | [-> | ->]];
    destruct b;
    [ destruct Hc1 as [Hk | Hk] | destruct Hc2 as [Hk | Hk]
    | destruct Hc1 as [Hk | Hk] | destruct Hc2 as [Hk | Hk]
    | destruct Hc1 as [Hk | Hk] | destruct Hc2 as [Hk | Hk] ].
  all: try (subst; constructor; cbn; auto; fail).
  all: match type of Hk with is_click ?k = true => destruct k; try discriminate Hk end.
  all: constructor; crunch; auto.
Qed.

Lemma wired_start (m : Machine) (b : Button) :
  wired m -> wired (step m (LongPressStart b)).
Proof.
  open_machine m. intros H; open_wired H.
  assert (Hcase : cur = state_init \/ cur <> state_init)
    by (destruct cur; auto; right; discriminate).
  destruct Hcase as [Hcur | Hcur].
  - destruct (Hinit Hcur) as (-> & -> & -> & ->).
    destruct b; constructor; cbn; auto.
  - destruct (Hpast Hcur) as (-> & -> & ->).
    destruct b; constructor; cbn; auto; intros; contradiction.
Qed.

Lemma wired_stop (m : Machine) (b : Button) :
  wired m -> wired (step m (LongPressStop b)).
Proof.
  open_machine m. intros H; open_wired H.
  destruct cur; try discriminate Hstop; injection Hstop as <- <-.
  1: destruct (Hinit eq_refl) as (-> & -> & -> & ->);
     destruct b; constructor; cbn; auto.
  all: destruct Hpast as (-> & -> & ->); [discriminate|];
    destruct Hl1, Hl2, b; subst;
    destruct Hrm as [-> | [-> | ->]];
    (constructor; lazy; auto; try discriminate; try congruence).
Qed.

Lemma wired_run_machine (m : Machine) (now : Z) :
  wired m -> wired (step m (RunMachine now)).
Proof.
  open_machine m. intros H; open_wired H.
  assert (Hcase : cur = state_init \/ cur <> state_init)
    by (destruct cur; auto; right; discriminate).
  destruct Hcase as [Hcur | Hcur].
  - destruct (Hinit Hcur) as (-> & -> & -> & ->). subst cur.
    injection Hstop as <- <-.
    destruct Hrm as [-> | [-> | ->]]; destruct ini;
      constructor; crunch; auto; try discriminate; try congruence.
  - destruct (Hpast Hcur) as (-> & -> & ->).
    destruct cur; try congruence; constructor; cbn; auto.
Qed.

Lemma wired_step (m : Machine) (ev : Event) : wired m -> wired (step m ev).
Proof.
  destruct ev;
    auto using wired_click, wired_start, wired_stop, wired_run_machine.
Qed.

Lemma reachable_wired (m : Machine) : reachable m -> wired m.
Proof.
  induction 1; auto using wired_setup, wired_step.
Qed.

Lemma reachable_run_events (es : list Event) (m : Machine) :
  reachable m -> reachable (run_events m es).
Proof.
  revert m; induction es as [| e es IH]; intros m Hm; cbn.
  - exact Hm.
  - apply IH, reachable_step, Hm.
Qed.

Lemma booted_reachable : reachable booted.
Proof. apply reachable_run_events, reachable_setup. Qed.

Lemma booted_swapped_reachable : reachable booted_swapped.
Proof. apply reachable_run_events, reachable_setup. Qed.

(** A click callback leaves the buttons, the Fsm, the latches, the version
    byte and the EEPROM alone, saves nothing and fires no trigger. *)
Lemma click_frame (f : callbackFunction) (m : Machine) :
  is_click f = true ->
  btn1 (call f m) = btn1 m /\ btn2 (call f m) = btn2 m
  /\ main_fsm (call f m) = main_fsm m
  /\ btn1_state (call f m) = btn1_state m /\ btn2_state (call f m) = btn2_state m
  /\ sversion (_settings (call f m)) = sversion (_settings m)
  /\ EEPROM (call f m) = EEPROM m
  /\ saved (trace (call f m)) = saved (trace m)
  /\ triggers (trace (call f m)) = triggers (trace m).
Proof.
  open_machine m.
  destruct f; try discriminate; intros _.
  all: repeat split; crunch; reflexivity.
Qed.

(** ** Saving *)

(** C1. The sketch writes the EEPROM only from [state_setup_exit], on a
    long-press-stop that finds both latches set; then it hands the settings
    in memory to [EEPROM.put] exactly once, and [state_run] becomes current.
    Any other event, state or latch combination leaves the EEPROM alone. *)
Theorem save_only_on_confirmed_exit (m : Machine) (ev : Event) :
  reachable m ->
  (current_state m <> state_setup_exit \/ btn1_state m <> 1 \/ btn2_state m <> 1
   \/ (forall b, ev <> LongPressStop b) ->
   saved (trace (step m ev)) = saved (trace m)
   /\ EEPROM (step m ev) = EEPROM m)
  /\ (current_state m = state_setup_exit -> btn1_state m = 1 -> btn2_state m = 1 ->
      forall b,
        saved (trace (step m (LongPressStop b))) = _settings m :: saved (trace m)
        /\ EEPROM_get (EEPROM (step m (LongPressStop b))) CONFIG_START_ADDRESS
           = _settings m
        /\ current_state (step m (LongPressStop b)) = state_run).
Proof.
  intros Hr. apply reachable_wired in Hr.
  split.
  - intros Hno. destruct ev as [b | b | b | now].
    + (* click *)
      destruct Hr as [_ Hc1 Hc2 _ _ _ _ _ _].
      assert (Hk : clickFunc (button b m) = NULL \/ is_click (clickFunc (button b m)) = true)
        by (destruct b; assumption).
      cbn [step]. destruct Hk as [-> | Hk]; [split; reflexivity|].
      destruct (click_frame _ m Hk) as (_ & _ & _ & _ & _ & _ & He & Hs & _).
      split; assumption.
    + (* long press start *)
      open_machine m. open_wired Hr.
      assert (Hcase : cur = state_init \/ cur <> state_init)
        by (destruct cur; auto; right; discriminate).
      destruct Hcase as [Hcur | Hcur].
      * destruct (Hinit Hcur) as (-> & -> & _). destruct b; split; reflexivity.
      * destruct (Hpast Hcur) as (-> & -> & _). destruct b; split; reflexivity.
    + (* long press stop *)
      open_machine m. open_wired Hr. cbn in Hno.
      destruct cur; try discriminate Hstop; injection Hstop as <- <-.
      1: destruct b; split; reflexivity.
      all: destruct Hpast as (-> & -> & ->); [discriminate|];
        destruct Hl1, Hl2, b; subst;
        destruct Hrm as [-> | [-> | ->]];
        try (split; reflexivity).
      all: exfalso; destruct Hno as [Hno | [Hno | [Hno | Hno]]];
        try (apply Hno; reflexivity); eapply Hno; reflexivity.
    + (* run_machine *)
      open_machine m. open_wired Hr.
      assert (Hcase : cur = state_init \/ cur <> state_init)
        by (destruct cur; auto; right; discriminate).
      destruct Hcase as [Hcur | Hcur].
      * subst cur. destruct Hrm as [-> | [-> | ->]]; destruct ini;
          split; crunch; reflexivity.
      * destruct (Hpast Hcur) as (_ & _ & ->).
        destruct cur; try congruence; split; reflexivity.
  - intros Hcur H1 H2 b.
    open_machine m. open_wired Hr. cbn in Hcur, H1, H2. subst.
    injection Hstop as <- <-.
    destruct Hpast as (-> & -> & ->); [discriminate|].
    destruct b; destruct Hrm as [-> | [-> | ->]]; repeat split; reflexivity.
Qed.

(** The theorem at [state_setup_exit] with both buttons held, button 1
    released. *)
Lemma save_only_on_confirmed_exit_witness :
  reachable at_setup_exit_both_held
  /\ current_state at_setup_exit_both_held = state_setup_exit
  /\ btn1_state at_setup_exit_both_held = 1
  /\ btn2_state at_setup_exit_both_held = 1
  /\ saved (trace (step at_setup_exit_both_held (LongPressStop Btn1)))
     = [_settings at_setup_exit_both_held]
  /\ current_state (step at_setup_exit_both_held (LongPressStop Btn1)) = state_run.
Proof.
  assert (Hr : reachable at_setup_exit_both_held)
    by apply reachable_run_events, booted_reachable.
  destruct (save_only_on_confirmed_exit at_setup_exit_both_held
              (LongPressStop Btn1) Hr) as [_ H].
  assert (Hcur : current_state at_setup_exit_both_held = state_setup_exit)
    by (vm_compute; reflexivity).
  assert (H1 : btn1_state at_setup_exit_both_held = 1) by (vm_compute; reflexivity).
  assert (H2 : btn2_state at_setup_exit_both_held = 1) by (vm_compute; reflexivity).
  destruct (H Hcur H1 H2 Btn1) as (Hs & _ & Hc).
  split; [exact Hr|]. split; [exact Hcur|]. split; [exact H1|].
  split; [exact H2|]. split; [|exact Hc].
  rewrite Hs. vm_compute. reflexivity.
Defined.

(** ** Loading *)

(** C3. [readSettings] looks at the stored version byte only: when it is
    not [CONFIG_VERSION] the settings in memory are the defaults, whatever
    the other nine bytes are; when it is, every field is the stored byte. *)
Theorem readSettings_version_gate (m : Machine) :
  _settings (readSettings m)
  = if EEPROM m CONFIG_START_ADDRESS =? CONFIG_VERSION
    then mkSettings (EEPROM m 0%nat) (EEPROM m 1%nat) (EEPROM m 2%nat)
           (EEPROM m 3%nat) (EEPROM m 4%nat) (EEPROM m 5%nat) (EEPROM m 6%nat)
           (EEPROM m 7%nat) (EEPROM m 8%nat) (EEPROM m 9%nat)
    else mkSettings CONFIG_VERSION 1 0 16 17 18 19 20 21 22.
Proof.
  open_machine m. crunch; reflexivity.
Qed.

(** The record [loadDefaultSettings] leaves in memory. *)
Lemma loadDefaultSettings_settings (m : Machine) :
  _settings (loadDefaultSettings m) = mkSettings CONFIG_VERSION 1 0 16 17 18 19 20 21 22.
Proof. open_machine m. vm_compute. reflexivity. Qed.

(** C10. Once [setup()] has read the settings, the version byte in memory
    is [CONFIG_VERSION] and stays so under every event; hence saving the
    settings of a reachable machine and reading them back gives the same
    record. *)
Theorem save_then_read_is_identity (m : Machine) :
  reachable m ->
  sversion (_settings m) = CONFIG_VERSION
  /\ _settings (readSettings (saveSettings m)) = _settings m.
Proof.
  intros Hr. apply reachable_wired in Hr.
  destruct Hr as [_ _ _ _ _ _ _ Hv _].
  split; [exact Hv|].
  open_machine m. cbn in Hv. subst sv. vm_compute. reflexivity.
Qed.

(** The theorem after an edit of the low limit that was not saved. *)
Lemma save_then_read_is_identity_witness :
  reachable low_limit_raised
  /\ sversion (_settings low_limit_raised) = CONFIG_VERSION
  /\ _settings (readSettings (saveSettings low_limit_raised))
     = _settings low_limit_raised.
Proof.
  assert (Hr : reachable low_limit_raised)
    by (do 2 apply reachable_run_events; apply booted_reachable).
  split; [exact Hr|].
  exact (save_then_read_is_identity low_limit_raised Hr).
Defined.

(** ** Run mode 1 *)

(** C4. With both limits in [0,127], low below high and the current value
    between them: down from low gives high, up from high gives low, every
    other click moves the value by exactly one, and the value stays between
    the limits. *)
Theorem mode1_cycle (m : Machine) :
  0 <= mode1_lowlimitPC (_settings m) <= 127 ->
  0 <= mode1_highlimitPC (_settings m) <= 127 ->
  mode1_lowlimitPC (_settings m) < mode1_highlimitPC (_settings m) ->
  mode1_lowlimitPC (_settings m) <= mode1_currentPC m
  <= mode1_highlimitPC (_settings m) ->
  (mode1_currentPC m = mode1_lowlimitPC (_settings m) ->
   mode1_currentPC (cyclePcDown m) = mode1_highlimitPC (_settings m))
  /\ (mode1_currentPC m = mode1_highlimitPC (_settings m) ->
      mode1_currentPC (cyclePcUp m) = mode1_lowlimitPC (_settings m))
  /\ (mode1_currentPC m <> mode1_lowlimitPC (_settings m) ->
      mode1_currentPC (cyclePcDown m) = mode1_currentPC m - 1)
  /\ (mode1_currentPC m <> mode1_highlimitPC (_settings m) ->
      mode1_currentPC (cyclePcUp m) = mode1_currentPC m + 1)
  /\ mode1_lowlimitPC (_settings m) <= mode1_currentPC (cyclePcDown m)
     <= mode1_highlimitPC (_settings m)
  /\ mode1_lowlimitPC (_settings m) <= mode1_currentPC (cyclePcUp m)
     <= mode1_highlimitPC (_settings m).
Proof.
  open_machine m. cbn. intros Hlo Hhi Hlt Hc.
  unfold cyclePcDown, cyclePcUp. cbn.
  destruct (Z.eqb_spec c1 lo) as [El | El];
    destruct (Z.eqb_spec c1 hi) as [Eh | Eh]; cbn;
    unfold int_wrap;
    repeat split; intros; try lia;
    rewrite ?Z.mod_small by lia; lia.
Qed.

(** The theorem on the default limits 0 and 16, the current value being 0. *)
Lemma mode1_cycle_witness :
  mode1_currentPC (cyclePcDown booted) = 16
  /\ mode1_currentPC (cyclePcUp booted) = 1.
Proof.
  assert (Hlo : 0 <= mode1_lowlimitPC (_settings booted) <= 127)
    by (vm_compute; split; discriminate).
  assert (Hhi : 0 <= mode1_highlimitPC (_settings booted) <= 127)
    by (vm_compute; split; discriminate).
  assert (Hlt : mode1_lowlimitPC (_settings booted) < mode1_highlimitPC (_settings booted))
    by (vm_compute; reflexivity).
  assert (Hc : mode1_lowlimitPC (_settings booted) <= mode1_currentPC booted
               <= mode1_highlimitPC (_settings booted))
    by (vm_compute; split; discriminate).
  destruct (mode1_cycle booted Hlo Hhi Hlt Hc) as (Hdown & _ & _ & Hup & _).
  split.
  - rewrite Hdown; vm_compute; reflexivity.
  - rewrite Hup; vm_compute; [reflexivity | discriminate].
Defined.

(** C5 as stated fails: with low = 10 above high = 5 read from the EEPROM,
    [setup()] seeds the current value with low, and the first click on
    button 1 finds it equal to low and wraps to high. *)
Lemma swapped_limits_still_wrap :
  reachable booted_swapped
  /\ mode1_lowlimitPC (_settings booted_swapped)
     > mode1_highlimitPC (_settings booted_swapped)
  /\ clickFunc (btn1 booted_swapped) = fp_cyclePcDown
  /\ mode1_currentPC booted_swapped = 10
  /\ mode1_currentPC (cyclePcDown booted_swapped) = 5
  /\ ~ never_wraps booted_swapped.
Proof.
  split; [exact booted_swapped_reachable|].
  split; [vm_compute; reflexivity|].
  split; [vm_compute; reflexivity|].
  split; [vm_compute; reflexivity|].
  split; [vm_compute; reflexivity|].
  intros [Hdown _]. vm_compute in Hdown. discriminate Hdown.
Qed.

(** C5, amended. With low above high the wrap tests still fire, and only, on
    equality with the limit: down from low gives high, up from high gives low;
    from any other value the callbacks move by one, with no range check. *)
Theorem mode1_wraps_on_equality_only (m : Machine) :
  mode1_lowlimitPC (_settings m) > mode1_highlimitPC (_settings m) ->
  INT_MIN < mode1_currentPC m < INT_MAX ->
  (mode1_currentPC m = mode1_lowlimitPC (_settings m) ->
   mode1_currentPC (cyclePcDown m) = mode1_highlimitPC (_settings m))
  /\ (mode1_currentPC m <> mode1_lowlimitPC (_settings m) ->
      mode1_currentPC (cyclePcDown m) = mode1_currentPC m - 1)
  /\ (mode1_currentPC m = mode1_highlimitPC (_settings m) ->
      mode1_currentPC (cyclePcUp m) = mode1_lowlimitPC (_settings m))
  /\ (mode1_currentPC m <> mode1_highlimitPC (_settings m) ->
      mode1_currentPC (cyclePcUp m) = mode1_currentPC m + 1).
Proof.
  open_machine m. cbn. unfold INT_MIN, INT_MAX. intros Hgt Hc.
  unfold cyclePcDown, cyclePcUp. cbn.
  destruct (Z.eqb_spec c1 lo) as [El | El];
    destruct (Z.eqb_spec c1 hi) as [Eh | Eh]; cbn;
    unfold int_wrap;
    repeat split; intros; try lia;
    rewrite ?Z.mod_small by lia; lia.
Qed.

(** The theorem on low = 10, high = 5, the current value being 10. *)
Lemma mode1_wraps_on_equality_only_witness :
  mode1_currentPC (cyclePcDown booted_swapped) = 5
  /\ mode1_currentPC (cyclePcUp booted_swapped) = 11.
Proof.
  assert (Hgt : mode1_lowlimitPC (_settings booted_swapped)
                > mode1_highlimitPC (_settings booted_swapped))
    by (vm_compute; reflexivity).
  assert (Hc : INT_MIN < mode1_currentPC booted_swapped < INT_MAX)
    by (vm_compute; split; reflexivity).
  destruct (mode1_wraps_on_equality_only booted_swapped Hgt Hc)
    as (Hdown & _ & _ & Hup).
  split.
  - rewrite Hdown; vm_compute; reflexivity.
  - rewrite Hup; vm_compute; [reflexivity | discriminate].
Defined.

(** ** Run mode 3 *)

(** C9. When a button's current mode 3 value is one of its two configured
    values, two clicks on that button bring the value back, and a click on
    one button leaves the other button's current value alone. *)
Theorem mode3_toggle_involution (m : Machine) (b : Button) :
  mode3_current b m = mode3_PC1 b (_settings m)
  \/ mode3_current b m = mode3_PC2 b (_settings m) ->
  mode3_current b (sendTogglePC b (sendTogglePC b m)) = mode3_current b m
  /\ mode3_current (other b) (sendTogglePC b m) = mode3_current (other b) m.
Proof.
  open_machine m. destruct b; cbn; intros H;
    unfold sendBtn1TogglePC, sendBtn2TogglePC; cbn; split.
  - destruct (Z.eqb_spec c3a a1) as [E | E]; cbn.
    + destruct (Z.eqb_spec a2 a1); cbn; congruence.
    + rewrite Z.eqb_refl; cbn. destruct H; congruence.
  - destruct (c3a =? a1); reflexivity.
  - destruct (Z.eqb_spec c3b b1) as [E | E]; cbn.
    + destruct (Z.eqb_spec b2 b1); cbn; congruence.
    + rewrite Z.eqb_refl; cbn. destruct H; congruence.
  - destruct (c3b =? b1); reflexivity.
Qed.

(** The theorem on the default pairs, for button 1. *)
Lemma mode3_toggle_involution_witness :
  mode3_current Btn1 (sendTogglePC Btn1 (sendTogglePC Btn1 booted)) = 19
  /\ mode3_current Btn2 (sendTogglePC Btn1 booted) = 21.
Proof.
  assert (H : mode3_current Btn1 booted = mode3_PC1 Btn1 (_settings booted)
              \/ mode3_current Btn1 booted = mode3_PC2 Btn1 (_settings booted))
    by (left; vm_compute; reflexivity).
  destruct (mode3_toggle_involution booted Btn1 H) as (Hinv & Hother).
  split.
  - rewrite Hinv; vm_compute; reflexivity.
  - change (other Btn1) with Btn2 in Hother. rewrite Hother; vm_compute; reflexivity.
Defined.

(** ** Navigation *)

(** C7. From [state_run], both buttons held long lead to
    [state_setup_mode]; button 2 alone then leads to [state_setup_midi];
    button 1 alone then leads to [state_setup_exit], [state_setup_mode1]
    never being current; button 1 alone then leads back to [state_run], with
    the settings in memory as they were, nothing saved and the EEPROM
    untouched.  [visited] lists the current state after each of the ten
    events. *)
Theorem setup_walkthrough (m : Machine) (first : Button) :
  reachable m ->
  current_state m = state_run ->
  let es := long_press_both first ++ long_press_only Btn2
            ++ long_press_only Btn1 ++ long_press_only Btn1 in
  visited m es
  = [state_run; state_run; state_setup_mode; state_setup_mode;
     state_setup_mode; state_setup_midi;
     state_setup_midi; state_setup_exit;
     state_setup_exit; state_run]
  /\ ~ In state_setup_mode1 (visited m es)
  /\ _settings (run_events m es) = _settings m
  /\ saved (trace (run_events m es)) = saved (trace m)
  /\ EEPROM (run_events m es) = EEPROM m.
Proof.
  intros Hr Hcur. apply reachable_wired in Hr.
  open_machine m. open_wired Hr. cbn in Hcur. subst cur.
  injection Hstop as <- <-.
  destruct Hpast as (-> & -> & ->); [discriminate|].
  assert (Hv' : visited
    (mkMachine (mkSettings sv mc lo hi p1 p2 a1 a2 b1 b2) c1 c3a c3b l1 l2 rm
       (mkButton k1 fp_longPressStart1 fp_longPressFromRun)
       (mkButton k2 fp_longPressStart2 fp_longPressFromRun)
       (mkFsm state_run true ts) ee tr)
    (long_press_both first ++ long_press_only Btn2
     ++ long_press_only Btn1 ++ long_press_only Btn1)
  = [state_run; state_run; state_setup_mode; state_setup_mode;
     state_setup_mode; state_setup_midi;
     state_setup_midi; state_setup_exit;
     state_setup_exit; state_run]).
  { destruct first; destruct Hrm as [-> | [-> | ->]]; vm_compute; reflexivity. }
  cbv zeta. rewrite Hv'.
  split; [reflexivity|].
  split; [cbn; intuition discriminate|].
  destruct first; destruct Hrm as [-> | [-> | ->]];
    split_all; vm_compute; reflexivity.
Qed.

(** The theorem right after the splash screen, button 2 released first. *)
Lemma setup_walkthrough_witness :
  reachable booted
  /\ current_state booted = state_run
  /\ current_state
       (run_events booted
          (long_press_both Btn2 ++ long_press_only Btn2
           ++ long_press_only Btn1 ++ long_press_only Btn1)) = state_run
  /\ saved
       (trace
          (run_events booted
             (long_press_both Btn2 ++ long_press_only Btn2
              ++ long_press_only Btn1 ++ long_press_only Btn1))) = [].
Proof.
  assert (Hcur : current_state booted = state_run) by (vm_compute; reflexivity).
  destruct (setup_walkthrough booted Btn2 booted_reachable Hcur)
    as (_ & _ & _ & Hs & _).
  split; [exact booted_reachable|]. split; [exact Hcur|].
  split; [vm_compute; reflexivity|].
  rewrite Hs. vm_compute. reflexivity.
Defined.

(** X16.  Every long-press-stop clears both latches, in every reachable
    machine. *)
Lemma stop_clears_latches (m : Machine) (b : Button) :
  reachable m ->
  btn1_state (step m (LongPressStop b)) = 0
  /\ btn2_state (step m (LongPressStop b)) = 0.
Proof.
  intros Hr. apply reachable_wired in Hr.
  open_machine m. open_wired Hr.
  destruct cur; try discriminate Hstop; injection Hstop as <- <-.
  1: destruct (Hinit eq_refl) as (_ & _ & -> & ->); destruct b; split; reflexivity.
  all: destruct Hpast as (-> & -> & ->); [discriminate|];
    destruct Hl1, Hl2, b; subst;
    destruct Hrm as [-> | [-> | ->]]; split; reflexivity.
Qed.

(** C8, at the failing input.  [state_setup_mode1_hi] is current and button 2
    still carries the classifier of [state_setup_mode1_low]; button 2 alone
    held long and released fires [TO_SETUP_MODE1_HI].  No transition leaves
    [state_setup_mode1_hi] on that code, so the state stays, and both latches
    are cleared. *)
Theorem setup_mode1_hi_button2_fires_trigger :
  reachable at_setup_mode1_hi
  /\ current_state at_setup_mode1_hi = state_setup_mode1_hi
  /\ longPressStopFunc (btn1 at_setup_mode1_hi) = fp_longPressFromSetupMode1Hi
  /\ longPressStopFunc (btn2 at_setup_mode1_hi) = fp_longPressFromSetupMode1Low
  /\ triggers (trace (run_events at_setup_mode1_hi (long_press_only Btn2)))
     = TO_SETUP_MODE1_HI :: triggers (trace at_setup_mode1_hi)
  /\ current_state (run_events at_setup_mode1_hi (long_press_only Btn2))
     = state_setup_mode1_hi
  /\ btn1_state (run_events at_setup_mode1_hi (long_press_only Btn2)) = 0
  /\ btn2_state (run_events at_setup_mode1_hi (long_press_only Btn2)) = 0.
Proof.
  split.
  { do 2 apply reachable_run_events. exact booted_reachable. }
  split_all; vm_compute; reflexivity.
Qed.

(** The same missing attachment in [on_setup_mode1_hi_enter]: both buttons
    held long in [state_setup_mode1_hi] lead to [state_setup_mode2] when
    button 1 is released first, and nowhere when button 2 is. *)
Lemma setup_mode1_hi_release_order :
  current_state (run_events at_setup_mode1_hi (long_press_both Btn1))
  = state_setup_mode2
  /\ current_state (run_events at_setup_mode1_hi (long_press_both Btn2))
     = state_setup_mode1_hi.
Proof. split_all; vm_compute; reflexivity. Qed.

(** ** Entry actions *)

(** C2 as stated fails.  The entry action of a placeholder state attaches
    nothing and shows nothing, and that of [state_init] attaches nothing;
    those of [state_setup_mode3] and [state_setup_exit] leave the click
    callbacks as they were, and that of [state_setup_mode1_hi] leaves the
    long-press-stop callback of button 2 as it was. *)
Lemma entry_contract_fails :
  ~ entry_contract state_setup_mode3_btn1PC1
  /\ ~ entry_contract state_init
  /\ ~ entry_contract state_setup_mode3
  /\ ~ entry_contract state_setup_exit
  /\ ~ entry_contract state_setup_mode1_hi
  /\ ~ (forall s, entry_contract s).
Proof.
  assert (Hv : forall f, valid_run_mode (btn1_attachClick f booted))
    by (intros f; left; vm_compute; reflexivity).
  assert (Hclicks : forall s,
            (forall m, clickFunc (btn1 (on_enter s m)) = clickFunc (btn1 m)) ->
            ~ rebinds_clicks (on_enter s)).
  { intros s Hkeep (f1 & f2 & H).
    destruct (H _ (Hv fp_nullClick)) as [H1 _].
    destruct (H _ (Hv fp_modeUp)) as [H2 _].
    rewrite Hkeep in H1, H2.
    vm_compute in H1, H2. rewrite <- H1 in H2. discriminate H2. }
  assert (Hplace : ~ entry_contract state_setup_mode3_btn1PC1).
  { intros (_ & _ & Hd).
    destruct (Hd (power_on blank_eeprom)) as (o & _ & Ht). discriminate Ht. }
  split_all.
  - exact Hplace.
  - intros (Hc & _). revert Hc. apply Hclicks.
    intros m; open_machine m; reflexivity.
  - intros (Hc & _). revert Hc. apply Hclicks.
    intros m; open_machine m; reflexivity.
  - intros (Hc & _). revert Hc. apply Hclicks.
    intros m; open_machine m; reflexivity.
  - intros (_ & (k & Hk) & _).
    destruct (Hk at_setup_mode1_low) as [H1 H2].
    vm_compute in H1, H2. rewrite <- H1 in H2. discriminate H2.
  - intros Hall. exact (Hplace (Hall _)).
Qed.

Lemma run_entry_contract : entry_contract state_run.
Proof.
  unfold entry_contract, rebinds_clicks, rebinds_stops, updates_display.
  split_all.
  - exists (fun rm => if rm =? RUN_MODE1 then fp_cyclePcDown
                      else if rm =? RUN_MODE2 then fp_sendBtn1PC
                      else fp_sendBtn1TogglePC),
           (fun rm => if rm =? RUN_MODE1 then fp_cyclePcUp
                      else if rm =? RUN_MODE2 then fp_sendBtn2PC
                      else fp_sendBtn2TogglePC).
    intros m Hrm. open_machine m. unfold valid_run_mode in Hrm. cbn in Hrm.
    destruct Hrm as [-> | [-> | ->]]; split; reflexivity.
  - exists fp_longPressFromRun. intros m. open_machine m.
    split; crunch; reflexivity.
  - intros m. open_machine m. unfold on_enter, on_run_enter. cbn [run_mode].
    destruct (rm =? RUN_MODE1), (rm =? RUN_MODE2), (rm =? RUN_MODE3);
      eexists; (split; [|reflexivity]); reflexivity.
Qed.

(** Which slots each entry action sets, whatever was attached before. *)
Lemma entry_slots_are_set :
  Forall entry_contract
    [state_run; state_setup_mode; state_setup_midi; state_setup_mode1;
     state_setup_mode1_low; state_setup_mode2; state_setup_mode2_btn1;
     state_setup_mode2_btn2]
  /\ (rebinds_clicks (on_enter state_setup_mode1_hi)
      /\ updates_display (on_enter state_setup_mode1_hi)
      /\ exists k, forall m,
           longPressStopFunc (btn1 (on_enter state_setup_mode1_hi m)) = k)
  /\ Forall (fun s => rebinds_stops (on_enter s) /\ updates_display (on_enter s))
       [state_setup_mode3; state_setup_exit]
  /\ (updates_display (on_enter state_init)
      /\ forall m, btn1 (on_enter state_init m) = btn1 m
                   /\ btn2 (on_enter state_init m) = btn2 m)
  /\ Forall (fun s => forall m, on_enter s m = m)
       [state_setup_mode3_btn1PC1; state_setup_mode3_btn1PC2;
        state_setup_mode3_btn2PC1; state_setup_mode3_btn2PC2].
Proof.
  split_all; unfold rebinds_clicks, rebinds_stops, updates_display.
  - apply Forall_cons; [apply run_entry_contract|].
    apply Forall_cons;
      [constant_entry fp_modeDown fp_modeUp fp_longPressFromSetupMode|].
    apply Forall_cons;
      [constant_entry fp_midiChnDown fp_midiChnUp fp_longPressFromSetupMidi|].
    apply Forall_cons;
      [constant_entry fp_nullClick fp_nullClick fp_longPressFromSetupMode1|].
    apply Forall_cons;
      [constant_entry fp_mode1LowLimitDecrease fp_mode1LowLimitIncrease
         fp_longPressFromSetupMode1Low|].
    apply Forall_cons;
      [constant_entry fp_nullClick fp_nullClick fp_longPressFromSetupMode2|].
    apply Forall_cons;
      [constant_entry fp_mode2Btn1Decrease fp_mode2Btn1Increase
         fp_longPressFromSetupMode2Btn1|].
    apply Forall_cons;
      [constant_entry fp_mode2Btn2Decrease fp_mode2Btn2Increase
         fp_longPressFromSetupMode2Btn2|].
    apply Forall_nil.
  - exists (fun _ => fp_mode1HiLimitDecrease), (fun _ => fp_mode1HiLimitIncrease).
    intros m _; open_machine m; split; reflexivity.
  - intros m; open_machine m; eexists; (split; [|reflexivity]); reflexivity.
  - exists fp_longPressFromSetupMode1Hi. intros m; open_machine m; reflexivity.
  - apply Forall_cons; [split|apply Forall_cons; [split|apply Forall_nil]].
    + exists fp_longPressFromSetupMode3. intros m; open_machine m; split; reflexivity.
    + intros m; open_machine m; eexists; (split; [|reflexivity]); reflexivity.
    + exists fp_longPressToRun. intros m; open_machine m; split; reflexivity.
    + intros m; open_machine m; eexists; (split; [|reflexivity]); reflexivity.
  - intros m; open_machine m; eexists; (split; [|reflexivity]); reflexivity.
  - intros m; open_machine m; split; reflexivity.
  - repeat (apply Forall_cons; [intros m; reflexivity|]). apply Forall_nil.
Qed.

(** The entry action of [s] leaves the callbacks and the text of [s]. *)
Ltac exact_entry :=
  let m := fresh "m" in
  first [ intros m _ | intros m ]; open_machine m;
  first [ reflexivity | eexists; split; reflexivity ].

(** C2, amended.  The entry actions of eight states attach to both buttons
    the click callbacks of the state (in [state_run] those of the run mode)
    and the combo classifier of the state, and show the status code of the
    state.  That of [state_setup_mode1_hi] attaches the click callbacks of
    the state and, to button 1, its classifier, and shows its status code;
    those of [state_setup_mode3] and [state_setup_exit] attach the classifier
    of the state to both buttons and show its status code; that of
    [state_init] only shows the version number; those of the four placeholder
    states do nothing. *)
Theorem entry_actions :
  Forall (fun s => entry_contract s
                   /\ binds_clicks_of s
                   /\ binds_stop_of s Btn1 /\ binds_stop_of s Btn2
                   /\ shows_status_of s)
    [state_run; state_setup_mode; state_setup_midi; state_setup_mode1;
     state_setup_mode1_low; state_setup_mode2; state_setup_mode2_btn1;
     state_setup_mode2_btn2]
  /\ (binds_clicks_of state_setup_mode1_hi
      /\ binds_stop_of state_setup_mode1_hi Btn1
      /\ shows_status_of state_setup_mode1_hi)
  /\ Forall (fun s => binds_stop_of s Btn1 /\ binds_stop_of s Btn2
                      /\ shows_status_of s)
       [state_setup_mode3; state_setup_exit]
  /\ (forall m, trace (on_enter state_init m) = SetNumber 1 1 :: trace m
                /\ btn1 (on_enter state_init m) = btn1 m
                /\ btn2 (on_enter state_init m) = btn2 m)
  /\ Forall (fun s => forall m, on_enter s m = m)
       [state_setup_mode3_btn1PC1; state_setup_mode3_btn1PC2;
        state_setup_mode3_btn2PC1; state_setup_mode3_btn2PC2].
Proof.
  destruct entry_slots_are_set as (Hset & _ & _ & _ & Hplace).
  unfold binds_clicks_of, binds_stop_of, shows_status_of.
  split_all.
  - inversion_clear Hset as [| ? ? Hrun Hset1].
    apply Forall_cons.
    { split_all; [exact Hrun | | exact_entry | exact_entry |].
      - intros m Hrm. open_machine m. unfold valid_run_mode in Hrm. cbn in Hrm.
        destruct Hrm as [-> | [-> | ->]]; reflexivity.
      - intros m Hrm. open_machine m. unfold valid_run_mode in Hrm. cbn in Hrm.
        destruct Hrm as [-> | [-> | ->]]; eexists; split; reflexivity. }
    repeat match goal with
    | H : Forall _ (_ :: _) |- Forall _ (_ :: _) =>
        let Hs := fresh "Hs" in
        let Ht := fresh "Ht" in
        inversion_clear H as [| ? ? Hs Ht]; apply Forall_cons;
        [split_all; [exact Hs | exact_entry ..]|]
    end.
    apply Forall_nil.
  - exact_entry.
  - exact_entry.
  - exact_entry.
  - apply Forall_cons; [split_all; exact_entry|].
    apply Forall_cons; [split_all; exact_entry|]. apply Forall_nil.
  - intros m; open_machine m; split_all; reflexivity.
  - exact Hplace.
Qed.

(** ** Ranges *)

(** C6 as stated fails: from an erased EEPROM, raising the low limit of
    mode 1 by one click in the setup menu and returning to [state_run] leaves
    the current value 0 below the limit 1; the next click on button 1 sends
    program -1. *)
Lemma click_leaves_program_range :
  reachable low_limit_raised
  /\ current_state low_limit_raised = state_run
  /\ clickFunc (btn1 low_limit_raised) = fp_cyclePcDown
  /\ mode1_lowlimitPC (_settings low_limit_raised) = 1
  /\ mode1_currentPC low_limit_raised = 0
  /\ mode1_currentPC (step low_limit_raised (Click Btn1)) = -1
  /\ programs (trace (step low_limit_raised (Click Btn1))) = [-1]
  /\ ~ self_bounded (step low_limit_raised (Click Btn1)).
Proof.
  split.
  { do 2 apply reachable_run_events. exact booted_reachable. }
  split_all; try (vm_compute; reflexivity).
  intros ([Hlow _] & _). vm_compute in Hlow. apply Hlow. reflexivity.
Qed.

(** C6, amended.  A click callback keeps settings fields that are in range
    in range.  When moreover the current value of mode 1 lies between the two
    limits, every click callback except the four that edit a limit keeps it
    there, and every program number it sends lies in [0,127]. *)
Theorem click_keeps_ranges (m : Machine) (f : callbackFunction) :
  is_click f = true ->
  fields_in_range (_settings m) ->
  fields_in_range (_settings (call f m))
  /\ (cycle_in_range m -> is_limit_edit f = false ->
      cycle_in_range (call f m)
      /\ program_number (mode1_currentPC (call f m))
      /\ exists sent,
           programs (trace (call f m)) = sent ++ programs (trace m)
           /\ Forall program_number sent).
Proof.
  open_machine m.
  unfold fields_in_range, cycle_in_range, program_number. cbn [_settings
    midiChannel mode1_lowlimitPC mode1_highlimitPC mode2_btn1PC mode2_btn2PC
    mode3_btn1PC1 mode3_btn1PC2 mode3_btn2PC1 mode3_btn2PC2 mode1_currentPC].
  intros Hf Hrange.
  destruct f; try discriminate Hf; clear Hf.
  all: split; [| intros Hcycle Hedit; try discriminate Hedit; clear Hedit].
  all: crunch; unfold byte_wrap, int_wrap;
    repeat match goal with
    | H : (_ =? _) = true |- _ => apply Z.eqb_eq in H
    | H : (_ =? _) = false |- _ => apply Z.eqb_neq in H
    end.
  all: try (rewrite ?Z.mod_small by lia; lia).
  all: split_all; try (rewrite ?Z.mod_small by lia; lia).
  all: first
    [ exists []; split; [reflexivity | constructor]
    | eexists [_]; split; [reflexivity |];
      repeat constructor; rewrite ?Z.mod_small by lia; lia ].
Qed.

(** The theorem on the default settings, for a click on button 2 in mode 1. *)
Lemma click_keeps_ranges_witness :
  fields_in_range (_settings (call fp_cyclePcUp booted))
  /\ cycle_in_range (call fp_cyclePcUp booted)
  /\ program_number (mode1_currentPC (call fp_cyclePcUp booted)).
Proof.
  assert (Hrange : fields_in_range (_settings booted))
    by (unfold fields_in_range, program_number; vm_compute; split_all; discriminate).
  assert (Hcycle : cycle_in_range booted)
    by (unfold cycle_in_range; vm_compute; split_all; discriminate).
  destruct (click_keeps_ranges booted fp_cyclePcUp eq_refl Hrange) as [Hf Hc].
  destruct (Hc Hcycle eq_refl) as (Hc' & Hp & _).
  exact (conj Hf (conj Hc' Hp)).
Defined.

(** * Further properties *)

(** ** The click callbacks follow the state *)

Lemma clicks_wired_setup (e : nat -> Z) : clicks_wired (setup (power_on e)).
Proof. unfold clicks_wired. crunch; reflexivity. Qed.

Lemma clicks_wired_click (m : Machine) (b : Button) :
  wired m -> clicks_wired m -> clicks_wired (step m (Click b)).
Proof.
  intros H Hc.
  assert (Hk : clickFunc (button b m) = NULL
               \/ is_click (clickFunc (button b m)) = true)
    by (destruct H, b; assumption).
  cbn [step]. destruct Hk as [-> | Hk]; [exact Hc|].
  destruct (click_frame _ m Hk) as (E1 & E2 & E3 & _).
  unfold clicks_wired, current_state in *. rewrite E1, E2, E3.
  destruct (m_current_state (main_fsm m)) eqn:Hcur; cbn in Hc |- *; try exact Hc.
  (* state_run: the run mode is not touched by the callbacks attached there *)
  destruct H as [_ _ _ _ _ _ _ _ Hrm].
  open_machine m. cbn in *. subst cur.
  destruct Hrm as [-> | [-> | ->]]; injection Hc as -> ->;
    destruct b; crunch; reflexivity.
Qed.

Lemma clicks_wired_step (m : Machine) (ev : Event) :
  wired m -> clicks_wired m -> clicks_wired (step m ev).
Proof.
  intros H Hc. destruct ev as [b | b | b | now].
  - apply clicks_wired_click; assumption.
  - (* long press start *)
    open_machine m. open_wired H. unfold clicks_wired in *. cbn in Hc.
    assert (Hcase : cur = state_init \/ cur <> state_init)
      by (destruct cur; auto; right; discriminate).
    destruct Hcase as [Hcur | Hcur].
    + destruct (Hinit Hcur) as (-> & -> & _). destruct b; exact Hc.
    + destruct (Hpast Hcur) as (-> & -> & _). destruct b; exact Hc.
  - (* long press stop *)
    open_machine m. open_wired H. unfold clicks_wired in *. cbn in Hc.
    destruct cur; try discriminate Hstop; injection Hstop as <- <-.
    1: destruct b; exact Hc.
    all: destruct Hpast as (-> & -> & ->); [discriminate|];
      destruct Hl1, Hl2, b; subst;
      destruct Hrm as [-> | [-> | ->]]; cbn in Hc;
      try (injection Hc as -> ->); lazy;
      first [ reflexivity | split; reflexivity | lazy in Hc; exact Hc ].
  - (* run_machine *)
    open_machine m. open_wired H. unfold clicks_wired in *. cbn in Hc.
    assert (Hcase : cur = state_init \/ cur <> state_init)
      by (destruct cur; auto; right; discriminate).
    destruct Hcase as [Hcur | Hcur].
    + subst cur. injection Hc as -> ->.
      destruct Hrm as [-> | [-> | ->]]; destruct ini; crunch; reflexivity.
    + destruct (Hpast Hcur) as (_ & _ & ->).
      destruct cur; try congruence; exact Hc.
Qed.

Lemma reachable_clicks_wired (m : Machine) : reachable m -> clicks_wired m.
Proof.
  induction 1.
  - apply clicks_wired_setup.
  - apply clicks_wired_step; [apply reachable_wired|]; assumption.
Qed.

(** Cases of a long-press-stop on a machine that satisfies [wired]: the
    state, the latches, the released button and the run mode become known. *)
Ltac stop_cases m H b :=
  destruct m as [[sv mc lo hi p1 p2 a1 a2 b1 b2] c1 c3a c3b l1 l2 rm
                 [k1 s1 q1] [k2 s2 q2] [cur ini ts] ee tr];
  destruct H as [Hstop Hc1 Hc2 Hinit Hpast Hl1 Hl2 Hv Hrm];
  cbn in Hstop, Hc1, Hc2, Hinit, Hpast, Hl1, Hl2, Hv, Hrm;
  destruct cur; try discriminate Hstop; injection Hstop as <- <-;
  [ destruct (Hinit eq_refl) as (-> & -> & -> & ->); destruct b
  | destruct Hpast as (-> & -> & ->); [discriminate|];
    destruct Hl1, Hl2, b; subst; destruct Hrm as [-> | [-> | ->]] .. ].

Ltac init_or_later cur :=
  let Hcase := fresh "Hcase" in
  assert (Hcase : cur = state_init \/ cur <> state_init)
    by (destruct cur; auto; right; discriminate);
  destruct Hcase as [Hcur | Hcur].

(** A click leaves the Fsm alone. *)
Lemma click_keeps_fsm (m : Machine) (b : Button) :
  wired m -> main_fsm (step m (Click b)) = main_fsm m.
Proof.
  intros H.
  assert (Hk : clickFunc (button b m) = NULL
               \/ is_click (clickFunc (button b m)) = true)
    by (destruct H, b; assumption).
  cbn [step]. destruct Hk as [-> | Hk]; [reflexivity|].
  destruct (click_frame _ m Hk) as (_ & _ & E3 & _). exact E3.
Qed.

(** A long-press-start sets the latch of its button, if anything. *)
Lemma start_sets_latch (m : Machine) (b : Button) :
  wired m ->
  step m (LongPressStart b) = m
  \/ step m (LongPressStart b)
     = match b with Btn1 => set_btn1_state 1 m | Btn2 => set_btn2_state 1 m end.
Proof.
  intros H. open_machine m. open_wired H. init_or_later cur.
  - destruct (Hinit Hcur) as (-> & -> & _). left. destruct b; reflexivity.
  - destruct (Hpast Hcur) as (-> & -> & _). right. destruct b; reflexivity.
Qed.

(** Once [state_init] is left, [run_machine] does nothing. *)
Lemma run_machine_after_init (m : Machine) (now : Z) :
  wired m -> current_state m <> state_init -> step m (RunMachine now) = m.
Proof.
  intros H Hcur. open_machine m. open_wired H. cbn in Hcur.
  destruct (Hpast Hcur) as (_ & _ & ->).
  destruct cur; try congruence; reflexivity.
Qed.

(** X1.  In every reachable machine the click callbacks are those the current
    state stands for: in [state_run] the pair of the run mode, in a setup
    screen the pair of that screen, in [state_setup_mode3] still the pair of
    [state_setup_mode2_btn2]; in [state_setup_exit] they are whatever the
    screen left behind, and none of them sends. *)
Theorem click_callbacks_follow_state (m : Machine) :
  reachable m ->
  (forall p, click_callbacks (current_state m) (run_mode m) = Some p ->
             (clickFunc (btn1 m), clickFunc (btn2 m)) = p)
  /\ (click_callbacks (current_state m) (run_mode m) = None ->
      is_send (clickFunc (btn1 m)) = false /\ is_send (clickFunc (btn2 m)) = false).
Proof.
  intros Hr. apply reachable_clicks_wired in Hr. unfold clicks_wired in Hr.
  destruct (click_callbacks (current_state m) (run_mode m)) as [q |].
  - split; [intros p Hp; injection Hp as <-; exact Hr | discriminate].
  - split; [discriminate | intros _; exact Hr].
Qed.

Lemma click_callbacks_follow_state_witness :
  (clickFunc (btn1 at_setup_mode3), clickFunc (btn2 at_setup_mode3))
  = (fp_mode2Btn2Decrease, fp_mode2Btn2Increase).
Proof.
  assert (Hr : reachable at_setup_mode3)
    by (do 3 apply reachable_run_events; exact booted_reachable).
  destruct (click_callbacks_follow_state at_setup_mode3 Hr) as [H _].
  apply H. vm_compute. reflexivity.
Defined.

(** X2.  A long-press-stop moves the current state as [nav] says, from the
    state, the two latches and, in [state_setup_mode1_hi] only, the button
    released. *)
Theorem long_press_stop_navigation (m : Machine) (b : Button) :
  reachable m ->
  current_state (step m (LongPressStop b))
  = nav (current_state m) b (btn1_state m) (btn2_state m).
Proof.
  intros Hr. apply reachable_wired in Hr.
  stop_cases m Hr b; reflexivity.
Qed.

Lemma long_press_stop_navigation_witness :
  current_state (step (step at_setup_mode3 (LongPressStart Btn2)) (LongPressStop Btn2))
  = state_setup_mode.
Proof.
  assert (Hr : reachable (step at_setup_mode3 (LongPressStart Btn2)))
    by (apply reachable_step; do 3 apply reachable_run_events;
        exact booted_reachable).
  rewrite (long_press_stop_navigation _ Btn2 Hr). vm_compute. reflexivity.
Defined.

(** X3.  Clicks and long-press-starts never change the current state, and
    once [state_init] is left [run_machine] changes nothing at all; from
    [state_init] it can only lead to [state_run]. *)
Theorem state_changes_on_stop_and_splash_only (m : Machine) :
  reachable m ->
  (forall b, current_state (step m (Click b)) = current_state m
             /\ current_state (step m (LongPressStart b)) = current_state m)
  /\ (forall now,
        (current_state m <> state_init -> step m (RunMachine now) = m)
        /\ (current_state m = state_init ->
            current_state (step m (RunMachine now)) = state_init
            \/ current_state (step m (RunMachine now)) = state_run)).
Proof.
  intros Hr. pose proof (reachable_wired m Hr) as H. split.
  - intros b. split.
    + unfold current_state. rewrite click_keeps_fsm by exact H. reflexivity.
    + destruct (start_sets_latch m b H) as [-> | ->]; [reflexivity|].
      destruct b; reflexivity.
  - intros now. split.
    + apply run_machine_after_init, H.
    + intros Hcur. open_machine m. open_wired H. cbn in Hcur. subst cur.
      destruct Hrm as [-> | [-> | ->]]; destruct ini; crunch; auto.
Qed.

Lemma state_changes_on_stop_and_splash_only_witness :
  step booted (RunMachine 5000) = booted
  /\ current_state (step booted (Click Btn1)) = state_run.
Proof.
  destruct (state_changes_on_stop_and_splash_only booted booted_reachable)
    as [Hb Hrun].
  split.
  - apply Hrun. vm_compute. discriminate.
  - destruct (Hb Btn1) as [Hc _]. rewrite Hc. vm_compute. reflexivity.
Defined.

(** X4.  A state can become current exactly when it is none of the four
    placeholder states. *)
Theorem reachable_states (s : State) :
  (exists m, reachable m /\ current_state m = s) <-> ~ In s placeholders.
Proof.
  split.
  - intros (m & Hr & <-) Hin. apply reachable_wired in Hr.
    destruct Hr as [Hstop _ _ _ _ _ _ _ _].
    cbn in Hin.
    destruct Hin as [E | [E | [E | [E | []]]]];
      rewrite <- E in Hstop; discriminate Hstop.
  - intros Hno.
    assert (Hgo : forall es, s = current_state (run_events booted es) ->
                  exists m, reachable m /\ current_state m = s).
    { intros es ->. eexists. split; [|reflexivity].
      apply reachable_run_events, booted_reachable. }
    destruct s.
    + exists (setup (power_on blank_eeprom)). split; [constructor | reflexivity].
    + apply (Hgo []). vm_compute; reflexivity.
    + apply (Hgo (long_press_both Btn1)). vm_compute; reflexivity.
    + apply (Hgo (long_press_both Btn1 ++ long_press_only Btn2)).
      vm_compute; reflexivity.
    + apply (Hgo (long_press_both Btn1 ++ long_press_only Btn2
                  ++ long_press_only Btn2)).
      vm_compute; reflexivity.
    + apply (Hgo (long_press_both Btn1 ++ long_press_only Btn2
                  ++ long_press_only Btn2 ++ long_press_both Btn1)).
      vm_compute; reflexivity.
    + apply (Hgo (long_press_both Btn1 ++ long_press_only Btn2
                  ++ long_press_only Btn2 ++ long_press_both Btn1
                  ++ long_press_only Btn2)).
      vm_compute; reflexivity.
    + apply (Hgo (long_press_both Btn1 ++ long_press_only Btn2
                  ++ long_press_only Btn2 ++ long_press_both Btn1
                  ++ long_press_only Btn2 ++ long_press_both Btn1
                  ++ long_press_both Btn1)).
      vm_compute; reflexivity.
    + apply (Hgo (long_press_both Btn1 ++ long_press_only Btn2
                  ++ long_press_only Btn2 ++ long_press_both Btn1
                  ++ long_press_only Btn2 ++ long_press_both Btn1
                  ++ long_press_both Btn1 ++ long_press_both Btn1)).
      vm_compute; reflexivity.
    + exfalso; apply Hno; cbn; auto.
    + exfalso; apply Hno; cbn; auto.
    + exfalso; apply Hno; cbn; auto.
    + exfalso; apply Hno; cbn; auto.
    + apply (Hgo (long_press_both Btn1 ++ long_press_only Btn2
                  ++ long_press_only Btn2 ++ long_press_both Btn1
                  ++ long_press_only Btn2 ++ long_press_both Btn1)).
      vm_compute; reflexivity.
    + apply (Hgo (long_press_both Btn1 ++ long_press_only Btn2
                  ++ long_press_only Btn2 ++ long_press_both Btn1
                  ++ long_press_only Btn2 ++ long_press_both Btn1
                  ++ long_press_both Btn1 ++ long_press_both Btn1
                  ++ long_press_both Btn1)).
      vm_compute; reflexivity.
    + apply (Hgo (long_press_both Btn1 ++ long_press_only Btn1)).
      vm_compute; reflexivity.
Qed.

(** X5.  [state_setup_mode2] has no way to [state_setup_exit]: button 1 alone
    held long fires [TO_SETUP_EXIT], for which no transition from
    [state_setup_mode2] is registered, and the state stays.  The only event
    that leaves the state is a long-press-stop with both latches set, and it
    leads to [state_setup_mode2_btn1]. *)
Theorem setup_mode2_is_left_by_both_only (m : Machine) (ev : Event) :
  reachable m ->
  current_state m = state_setup_mode2 ->
  (current_state (step m ev) <> state_setup_mode2 ->
   current_state (step m ev) = state_setup_mode2_btn1
   /\ btn1_state m = 1 /\ btn2_state m = 1 /\ exists b, ev = LongPressStop b)
  /\ (btn1_state m = 1 -> btn2_state m = 0 -> forall b,
      triggers (trace (step m (LongPressStop b)))
      = TO_SETUP_EXIT :: triggers (trace m)
      /\ current_state (step m (LongPressStop b)) = state_setup_mode2).
Proof.
  intros Hr Hcur. pose proof (reachable_wired m Hr) as H.
  split.
  - intros Hleft. destruct ev as [b | b | b | now].
    + exfalso. apply Hleft. unfold current_state in *.
      rewrite click_keeps_fsm by exact H. exact Hcur.
    + exfalso. apply Hleft.
      destruct (start_sets_latch m b H) as [-> | ->]; [exact Hcur|].
      destruct b; exact Hcur.
    + open_machine m. open_wired H. cbn in Hcur. subst cur.
      injection Hstop as <- <-.
      destruct Hpast as (-> & -> & ->); [discriminate|].
      destruct Hl1, Hl2, b; subst; destruct Hrm as [-> | [-> | ->]];
        try (exfalso; apply Hleft; reflexivity);
        (split; [reflexivity|]); (split; [reflexivity|]);
        (split; [reflexivity|]); eexists; reflexivity.
    + exfalso. apply Hleft. rewrite run_machine_after_init; [exact Hcur|exact H|].
      rewrite Hcur. discriminate.
  - intros H1 H2 b.
    open_machine m. open_wired H. cbn in Hcur, H1, H2. subst.
    injection Hstop as <- <-.
    destruct Hpast as (-> & -> & ->); [discriminate|].
    destruct b; split; reflexivity.
Qed.

Lemma setup_mode2_is_left_by_both_only_witness :
  current_state
    (step (run_events at_setup_mode1_hi
             (long_press_both Btn1 ++ [LongPressStart Btn1]))
       (LongPressStop Btn1))
  = state_setup_mode2.
Proof.
  assert (Hr : reachable (run_events at_setup_mode1_hi
                            (long_press_both Btn1 ++ [LongPressStart Btn1])))
    by (do 3 apply reachable_run_events; exact booted_reachable).
  assert (Hcur : current_state (run_events at_setup_mode1_hi
                   (long_press_both Btn1 ++ [LongPressStart Btn1]))
                 = state_setup_mode2) by (vm_compute; reflexivity).
  destruct (setup_mode2_is_left_by_both_only _ (LongPressStop Btn1) Hr Hcur)
    as [_ H].
  assert (H1 : btn1_state (run_events at_setup_mode1_hi
                 (long_press_both Btn1 ++ [LongPressStart Btn1])) = 1)
    by (vm_compute; reflexivity).
  assert (H2 : btn2_state (run_events at_setup_mode1_hi
                 (long_press_both Btn1 ++ [LongPressStart Btn1])) = 0)
    by (vm_compute; reflexivity).
  destruct (H H1 H2 Btn1) as [_ Hstay].
  exact Hstay.
Defined.

(** X6.  A long-press-stop that finds no latch set changes nothing: the
    second release after both buttons were held is absorbed. *)
Theorem release_without_latch_changes_nothing (m : Machine) (b : Button) :
  reachable m ->
  btn1_state m = 0 -> btn2_state m = 0 ->
  step m (LongPressStop b) = m.
Proof.
  intros Hr H1 H2. apply reachable_wired in Hr.
  open_machine m. open_wired Hr. cbn in H1, H2. subst l1 l2.
  destruct cur; try discriminate Hstop; injection Hstop as <- <-;
    destruct b; reflexivity.
Qed.

Lemma release_without_latch_changes_nothing_witness :
  step booted (LongPressStop Btn2) = booted.
Proof.
  assert (H1 : btn1_state booted = 0) by (vm_compute; reflexivity).
  assert (H2 : btn2_state booted = 0) by (vm_compute; reflexivity).
  exact (release_without_latch_changes_nothing booted Btn2 booted_reachable H1 H2).
Defined.

(** X7.  From every setup screen but [state_setup_mode2], button 1 alone
    held long and released leads to [state_setup_exit], and once more to
    [state_run]; settings, run mode and EEPROM are as before and nothing was
    saved. *)
Theorem button1_long_press_leaves_setup (m : Machine) :
  reachable m ->
  In (current_state m) setup_screens ->
  btn2_state m = 0 ->
  let m1 := run_events m (long_press_only Btn1) in
  let m2 := run_events m1 (long_press_only Btn1) in
  current_state m1 = state_setup_exit
  /\ current_state m2 = state_run
  /\ _settings m2 = _settings m /\ run_mode m2 = run_mode m
  /\ EEPROM m2 = EEPROM m /\ saved (trace m2) = saved (trace m).
Proof.
  intros Hr Hin H2. apply reachable_wired in Hr.
  open_machine m. open_wired Hr. cbn in Hin, H2. subst l2.
  destruct Hin as [<- | [<- | [<- | [<- | [<- | [<- | [<- | [<- | []]]]]]]]];
    injection Hstop as <- <-;
    (destruct Hpast as (-> & -> & ->); [discriminate|]);
    destruct Hrm as [-> | [-> | ->]];
    cbv zeta; split_all; vm_compute; reflexivity.
Qed.

Lemma button1_long_press_leaves_setup_witness :
  current_state (run_events at_setup_mode3 (long_press_only Btn1))
  = state_setup_exit.
Proof.
  assert (Hr : reachable at_setup_mode3)
    by (do 3 apply reachable_run_events; exact booted_reachable).
  assert (Hin : In (current_state at_setup_mode3) setup_screens)
    by (vm_compute; tauto).
  assert (H2 : btn2_state at_setup_mode3 = 0) by (vm_compute; reflexivity).
  destruct (button1_long_press_leaves_setup at_setup_mode3 Hr Hin H2) as [H _].
  exact H.
Defined.

(** ** What changes the data *)

(** Long presses and [run_machine] only navigate: they leave the settings,
    the run mode and the current values alone and send nothing. *)
Lemma navigation_frame (m : Machine) (ev : Event) :
  wired m -> (forall b, ev <> Click b) ->
  _settings (step m ev) = _settings m
  /\ run_mode (step m ev) = run_mode m
  /\ mode1_currentPC (step m ev) = mode1_currentPC m
  /\ mode3_current_btn1PC (step m ev) = mode3_current_btn1PC m
  /\ mode3_current_btn2PC (step m ev) = mode3_current_btn2PC m
  /\ program_changes (trace (step m ev)) = program_changes (trace m).
Proof.
  intros H Hev. destruct ev as [b | b | b | now].
  - exfalso. exact (Hev b eq_refl).
  - destruct (start_sets_latch m b H) as [-> | ->];
      [|destruct b]; split_all; reflexivity.
  - stop_cases m H b; split_all; reflexivity.
  - open_machine m. open_wired H. init_or_later cur.
    + subst cur. destruct Hrm as [-> | [-> | ->]]; destruct ini;
        split_all; crunch; reflexivity.
    + destruct (Hpast Hcur) as (_ & _ & ->).
      destruct cur; try congruence; split_all; reflexivity.
Qed.

(** The six sending callbacks leave settings and run mode alone and send
    one Program Change, on the configured channel. *)
Lemma send_frame (f : callbackFunction) (m : Machine) :
  is_send f = true ->
  _settings (call f m) = _settings m
  /\ run_mode (call f m) = run_mode m
  /\ exists pc, program_changes (trace (call f m))
                = (pc, midiChannel (_settings m)) :: program_changes (trace m).
Proof.
  open_machine m. destruct f; try discriminate; intros _.
  all: split; [crunch; reflexivity|]; split; [crunch; reflexivity|].
  all: crunch; eexists; reflexivity.
Qed.

(** The other click callbacks send nothing. *)
Lemma edit_sends_nothing (f : callbackFunction) (m : Machine) :
  f = NULL \/ is_click f = true ->
  is_send f = false ->
  program_changes (trace (call f m)) = program_changes (trace m).
Proof.
  intros [-> | Hk] Hf; [reflexivity|].
  open_machine m.
  destruct f; try discriminate Hk; try discriminate Hf; crunch; reflexivity.
Qed.

(** X8.  A Program Change is sent by a click while [state_run] is current and
    by nothing else; such a click sends exactly one, on the channel of the
    settings. *)
Theorem program_change_on_click_in_run_only (m : Machine) (ev : Event) :
  reachable m ->
  (current_state m <> state_run \/ (forall b, ev <> Click b) ->
   program_changes (trace (step m ev)) = program_changes (trace m))
  /\ (current_state m = state_run -> forall b,
      exists pc,
        program_changes (trace (step m (Click b)))
        = (pc, midiChannel (_settings m)) :: program_changes (trace m)).
Proof.
  intros Hr. pose proof (reachable_wired m Hr) as H.
  pose proof (reachable_clicks_wired m Hr) as Hc. unfold clicks_wired in Hc.
  split.
  - intros Hno.
    assert (Hcase : (exists b, ev = Click b) \/ (forall b, ev <> Click b))
      by (destruct ev; eauto; right; discriminate).
    destruct Hcase as [[b ->] | Hev];
      [|destruct (navigation_frame m ev H Hev) as (_ & _ & _ & _ & _ & E);
        exact E].
    destruct Hno as [Hcur | Hno]; [|exfalso; exact (Hno b eq_refl)].
    cbn [step]. apply edit_sends_nothing.
    + destruct H, b; assumption.
    + destruct (current_state m); try congruence; cbn in Hc;
        destruct b; cbn [button];
        first [ injection Hc as E1 E2; rewrite ?E1, ?E2; reflexivity
              | apply Hc ].
  - intros Hcur b. rewrite Hcur in Hc. cbn in Hc. cbn [step].
    destruct H as [_ _ _ _ _ _ _ _ Hrm].
    assert (Hs : is_send (clickFunc (button b m)) = true).
    { destruct Hrm as [E | [E | E]]; rewrite E in Hc;
        injection Hc as E1 E2; destruct b; cbn; rewrite ?E1, ?E2; reflexivity. }
    destruct (send_frame _ m Hs) as (_ & _ & Hp). exact Hp.
Qed.

Lemma program_change_on_click_in_run_only_witness :
  program_changes (trace (step at_setup_mode3 (Click Btn2)))
  = program_changes (trace at_setup_mode3).
Proof.
  assert (Hr : reachable at_setup_mode3)
    by (do 3 apply reachable_run_events; exact booted_reachable).
  destruct (program_change_on_click_in_run_only at_setup_mode3 (Click Btn2) Hr)
    as [H _].
  apply H. left. vm_compute. discriminate.
Defined.

(** X9.  While [state_run] or [state_init] is current no event changes the
    settings or the run mode: they are edited in the setup screens only. *)
Theorem settings_fixed_outside_setup (m : Machine) (ev : Event) :
  reachable m ->
  current_state m = state_run \/ current_state m = state_init ->
  _settings (step m ev) = _settings m /\ run_mode (step m ev) = run_mode m.
Proof.
  intros Hr Hcur. pose proof (reachable_wired m Hr) as H.
  pose proof (reachable_clicks_wired m Hr) as Hc. unfold clicks_wired in Hc.
  assert (Hcase : (exists b, ev = Click b) \/ (forall b, ev <> Click b))
    by (destruct ev; eauto; right; discriminate).
  destruct Hcase as [[b ->] | Hev];
    [|destruct (navigation_frame m ev H Hev) as (E1 & E2 & _); split; assumption].
  cbn [step]. destruct Hcur as [Hcur | Hcur]; rewrite Hcur in Hc; cbn in Hc.
  - destruct H as [_ _ _ _ _ _ _ _ Hrm].
    assert (Hs : is_send (clickFunc (button b m)) = true).
    { destruct Hrm as [E | [E | E]]; rewrite E in Hc;
        injection Hc as E1 E2; destruct b; cbn; rewrite ?E1, ?E2; reflexivity. }
    destruct (send_frame _ m Hs) as (E1 & E2 & _). split; assumption.
  - injection Hc as E1 E2. destruct b; cbn; rewrite ?E1, ?E2; split; reflexivity.
Qed.

Lemma settings_fixed_outside_setup_witness :
  _settings (step booted (Click Btn1)) = _settings booted.
Proof.
  assert (Hcur : current_state booted = state_run \/ current_state booted = state_init)
    by (left; vm_compute; reflexivity).
  destruct (settings_fixed_outside_setup booted (Click Btn1) booted_reachable Hcur)
    as [H _].
  exact H.
Defined.

(** X10.  In run mode 2 a click on a button sends the program number
    configured for that button, on the configured channel, and changes no
    setting and no current value. *)
Theorem run_mode2_click_sends_configured (m : Machine) (b : Button) :
  reachable m ->
  current_state m = state_run ->
  run_mode m = RUN_MODE2 ->
  program_changes (trace (step m (Click b)))
  = (match b with
     | Btn1 => mode2_btn1PC (_settings m)
     | Btn2 => mode2_btn2PC (_settings m)
     end, midiChannel (_settings m)) :: program_changes (trace m)
  /\ _settings (step m (Click b)) = _settings m
  /\ mode1_currentPC (step m (Click b)) = mode1_currentPC m
  /\ mode3_current_btn1PC (step m (Click b)) = mode3_current_btn1PC m
  /\ mode3_current_btn2PC (step m (Click b)) = mode3_current_btn2PC m.
Proof.
  intros Hr Hcur Hrm.
  pose proof (reachable_clicks_wired m Hr) as Hc. unfold clicks_wired in Hc.
  rewrite Hcur, Hrm in Hc. cbn in Hc. injection Hc as E1 E2.
  open_machine m. cbn in E1, E2. subst k1 k2.
  destruct b; split_all; crunch; reflexivity.
Qed.

Lemma run_mode2_click_sends_configured_witness :
  program_changes
    (trace (step (run_events at_setup_mode
                    ([Click Btn2] ++ long_press_only Btn1 ++ long_press_only Btn1))
              (Click Btn2)))
  = [(18, 1)].
Proof.
  assert (Hr : reachable (run_events at_setup_mode
                 ([Click Btn2] ++ long_press_only Btn1 ++ long_press_only Btn1)))
    by (do 2 apply reachable_run_events; exact booted_reachable).
  assert (Hcur : current_state (run_events at_setup_mode
                 ([Click Btn2] ++ long_press_only Btn1 ++ long_press_only Btn1))
                 = state_run) by (vm_compute; reflexivity).
  assert (Hrm : run_mode (run_events at_setup_mode
                 ([Click Btn2] ++ long_press_only Btn1 ++ long_press_only Btn1))
                = RUN_MODE2) by (vm_compute; reflexivity).
  destruct (run_mode2_click_sends_configured _ Btn2 Hr Hcur Hrm) as [H _].
  rewrite H. vm_compute. reflexivity.
Defined.

(** A click leaves the four mode 3 program numbers of the settings alone. *)
Lemma click_keeps_mode3_pairs (f : callbackFunction) (m : Machine) :
  f = NULL \/ is_click f = true ->
  mode3_btn1PC1 (_settings (call f m)) = mode3_btn1PC1 (_settings m)
  /\ mode3_btn1PC2 (_settings (call f m)) = mode3_btn1PC2 (_settings m)
  /\ mode3_btn2PC1 (_settings (call f m)) = mode3_btn2PC1 (_settings m)
  /\ mode3_btn2PC2 (_settings (call f m)) = mode3_btn2PC2 (_settings m).
Proof.
  intros [-> | Hk]; [split_all; reflexivity|].
  open_machine m.
  destruct f; try discriminate Hk; split_all; crunch; reflexivity.
Qed.

(** X11.  No event changes the four program numbers of run mode 3: the sketch
    has no screen that edits them, so they stay as loaded at power-on. *)
Theorem mode3_pairs_are_never_edited (e : nat -> Z) (es : list Event) :
  let loaded := _settings (setup (power_on e)) in
  let s := _settings (run_events (setup (power_on e)) es) in
  mode3_btn1PC1 s = mode3_btn1PC1 loaded
  /\ mode3_btn1PC2 s = mode3_btn1PC2 loaded
  /\ mode3_btn2PC1 s = mode3_btn2PC1 loaded
  /\ mode3_btn2PC2 s = mode3_btn2PC2 loaded.
Proof.
  cbv zeta.
  assert (Hgen : forall m, wired m ->
    mode3_btn1PC1 (_settings (run_events m es)) = mode3_btn1PC1 (_settings m)
    /\ mode3_btn1PC2 (_settings (run_events m es)) = mode3_btn1PC2 (_settings m)
    /\ mode3_btn2PC1 (_settings (run_events m es)) = mode3_btn2PC1 (_settings m)
    /\ mode3_btn2PC2 (_settings (run_events m es)) = mode3_btn2PC2 (_settings m)).
  { induction es as [| ev es IH]; intros m H; [split_all; reflexivity|].
    change (run_events m (ev :: es)) with (run_events (step m ev) es).
    destruct (IH (step m ev) (wired_step m ev H)) as (E1 & E2 & E3 & E4).
    rewrite E1, E2, E3, E4. clear IH E1 E2 E3 E4.
    assert (Hcase : (exists b, ev = Click b) \/ (forall b, ev <> Click b))
      by (destruct ev; eauto; right; discriminate).
    destruct Hcase as [[b ->] | Hev].
    - apply click_keeps_mode3_pairs. destruct H, b; assumption.
    - destruct (navigation_frame m ev H Hev) as (E & _). rewrite E.
      split_all; reflexivity. }
  apply Hgen, wired_setup.
Qed.

(** ** The EEPROM *)

(** [EEPROM.put] of a settings block writes its ten cells only. *)
Lemma EEPROM_put_outside (e : nat -> Z) (a : nat) (s : settingsStruct) (i : nat) :
  (i < a \/ a + 10 <= i)%nat -> EEPROM_put e a s i = e i.
Proof.
  intros Hi. unfold EEPROM_put.
  repeat match goal with
  | |- context [Nat.eqb ?x ?y] => destruct (Nat.eqb_spec x y); [lia|]
  end.
  reflexivity.
Qed.

(** An event leaves the EEPROM as it is or puts the settings in memory. *)
Lemma step_EEPROM (m : Machine) (ev : Event) :
  wired m ->
  EEPROM (step m ev) = EEPROM m
  \/ EEPROM (step m ev) = EEPROM_put (EEPROM m) CONFIG_START_ADDRESS (_settings m).
Proof.
  intros H. destruct ev as [b | b | b | now].
  - left. cbn [step].
    assert (Hk : clickFunc (button b m) = NULL
                 \/ is_click (clickFunc (button b m)) = true)
      by (destruct H, b; assumption).
    destruct Hk as [-> | Hk]; [reflexivity|].
    destruct (click_frame _ m Hk) as (_ & _ & _ & _ & _ & _ & E & _). exact E.
  - left. destruct (start_sets_latch m b H) as [-> | ->]; [|destruct b];
      reflexivity.
  - stop_cases m H b; first [left; reflexivity | right; reflexivity].
  - left. open_machine m. open_wired H. init_or_later cur.
    + subst cur. destruct Hrm as [-> | [-> | ->]]; destruct ini; crunch;
        reflexivity.
    + destruct (Hpast Hcur) as (_ & _ & ->).
      destruct cur; try congruence; reflexivity.
Qed.

(** X12.  Whatever happens, the sketch never changes an EEPROM cell outside
    the ten bytes of the settings block. *)
Theorem eeprom_outside_settings_block_is_untouched
  (e : nat -> Z) (es : list Event) (i : nat) :
  (10 <= i)%nat ->
  EEPROM (run_events (setup (power_on e)) es) i = e i.
Proof.
  intros Hi.
  assert (Hgen : forall m, wired m -> EEPROM (run_events m es) i = EEPROM m i).
  { induction es as [| ev es IH]; intros m H; [reflexivity|].
    change (run_events m (ev :: es)) with (run_events (step m ev) es).
    rewrite (IH (step m ev) (wired_step m ev H)).
    destruct (step_EEPROM m ev H) as [-> | ->]; [reflexivity|].
    apply EEPROM_put_outside. unfold CONFIG_START_ADDRESS. lia. }
  rewrite (Hgen _ (wired_setup e)).
  destruct (Z.eqb_spec (e 0%nat) CONFIG_VERSION) as [E | E];
    unfold setup, readSettings; crunch; reflexivity.
Qed.

Lemma eeprom_outside_settings_block_is_untouched_witness :
  EEPROM (run_events (setup (power_on swapped_limits_eeprom))
            ([RunMachine 1; RunMachine 3001] ++ long_press_both Btn1
             ++ long_press_only Btn1 ++ long_press_both Btn2)) 10%nat
  = 255.
Proof.
  rewrite eeprom_outside_settings_block_is_untouched by apply le_n.
  reflexivity.
Defined.

(** X13.  A confirmed save survives a power cycle: [setup()] on the EEPROM it
    leaves loads exactly the settings that were in memory, and starts over
    in run mode 1 with the current values re-seeded from them. *)
Theorem saved_settings_survive_power_cycle (m : Machine) (b : Button) :
  reachable m ->
  current_state m = state_setup_exit ->
  btn1_state m = 1 -> btn2_state m = 1 ->
  let r := setup (power_on (EEPROM (step m (LongPressStop b)))) in
  _settings r = _settings m
  /\ run_mode r = RUN_MODE1
  /\ mode1_currentPC r = mode1_lowlimitPC (_settings m)
  /\ mode3_current_btn1PC r = mode3_btn1PC1 (_settings m)
  /\ mode3_current_btn2PC r = mode3_btn2PC1 (_settings m).
Proof.
  intros Hr Hcur H1 H2. apply reachable_wired in Hr.
  open_machine m. open_wired Hr. cbn in Hcur, H1, H2. subst.
  injection Hstop as <- <-.
  destruct Hpast as (-> & -> & ->); [discriminate|].
  destruct b; destruct Hrm as [-> | [-> | ->]];
    cbv zeta; split_all; vm_compute; reflexivity.
Qed.

Lemma saved_settings_survive_power_cycle_witness :
  _settings (setup (power_on
               (EEPROM (step at_setup_exit_both_held (LongPressStop Btn1)))))
  = _settings at_setup_exit_both_held.
Proof.
  assert (Hr : reachable at_setup_exit_both_held)
    by apply reachable_run_events, booted_reachable.
  assert (Hcur : current_state at_setup_exit_both_held = state_setup_exit)
    by (vm_compute; reflexivity).
  assert (H1 : btn1_state at_setup_exit_both_held = 1) by (vm_compute; reflexivity).
  assert (H2 : btn2_state at_setup_exit_both_held = 1) by (vm_compute; reflexivity).
  destruct (saved_settings_survive_power_cycle _ Btn1 Hr Hcur H1 H2) as [H _].
  exact H.
Defined.

(** ** Bytes *)

Ltac bytes_arith :=
  unfold is_byte, byte_wrap in *; Z.div_mod_to_equations; lia.

(** A click keeps every settings field within a byte. *)
Lemma click_keeps_bytes (f : callbackFunction) (m : Machine) :
  f = NULL \/ is_click f = true ->
  settings_bytes (_settings m) -> settings_bytes (_settings (call f m)).
Proof.
  intros [-> | Hk] Hb; [exact Hb|].
  open_machine m. unfold settings_bytes in *. cbn in Hb.
  destruct Hb as (B0 & B1 & B2 & B3 & B4 & B5 & B6 & B7 & B8 & B9).
  destruct f; try discriminate Hk; crunch; split_all;
    try assumption; bytes_arith.
Qed.

(** X14.  When the EEPROM holds bytes, every settings field in memory is
    within a byte at all times: the increments and decrements of the setup
    screens wrap within 0..255. *)
Theorem settings_fields_stay_bytes (e : nat -> Z) (es : list Event) :
  (forall a, is_byte (e a)) ->
  settings_bytes (_settings (run_events (setup (power_on e)) es)).
Proof.
  intros He.
  assert (Hgen : forall m, wired m -> settings_bytes (_settings m) ->
                 settings_bytes (_settings (run_events m es))).
  { induction es as [| ev es IH]; intros m H Hb; [exact Hb|].
    change (run_events m (ev :: es)) with (run_events (step m ev) es).
    apply IH; [apply wired_step, H|].
    assert (Hcase : (exists b, ev = Click b) \/ (forall b, ev <> Click b))
      by (destruct ev; eauto; right; discriminate).
    destruct Hcase as [[b ->] | Hev].
    - apply click_keeps_bytes; [destruct H, b; assumption | exact Hb].
    - destruct (navigation_frame m ev H Hev) as (E & _). rewrite E. exact Hb. }
  apply Hgen; [apply wired_setup|].
  unfold settings_bytes.
  pose proof (He 0%nat); pose proof (He 1%nat); pose proof (He 2%nat);
    pose proof (He 3%nat); pose proof (He 4%nat); pose proof (He 5%nat);
    pose proof (He 6%nat); pose proof (He 7%nat); pose proof (He 8%nat);
    pose proof (He 9%nat).
  unfold is_byte in *. crunch; split_all; lia.
Qed.

Lemma settings_fields_stay_bytes_witness :
  settings_bytes
    (_settings (run_events (setup (power_on blank_eeprom))
                  ([RunMachine 1; RunMachine 3001] ++ long_press_both Btn1
                   ++ long_press_only Btn2 ++ [Click Btn1]))).
Proof.
  assert (He : forall a, is_byte (blank_eeprom a))
    by (intros a; unfold is_byte, blank_eeprom; lia).
  exact (settings_fields_stay_bytes blank_eeprom _ He).
Defined.

(** ** The display *)

Lemma substring_0_length (n : nat) (s : string) :
  (String.length (substring 0 n s) <= n)%nat.
Proof.
  revert s; induction n as [| n IH]; intros s; destruct s as [| c s]; cbn;
    try lia.
  specialize (IH s). lia.
Qed.

Lemma toCharArray5_length (s : string) :
  (String.length (toCharArray5 s) <= 4)%nat.
Proof. apply substring_0_length. Qed.

(** Follows the trace through assignments, attachments and display calls,
    leaving the texts folded. *)
Ltac trace_norm :=
  cbn [trace emit updateDisplayNo updateDisplay saveSettings
       set_settings set_mode1_currentPC set_mode3_current_btn1PC
       set_mode3_current_btn2PC set_btn1_state set_btn2_state set_run_mode
       set_btn1 set_btn2 set_main_fsm set_EEPROM set_current_state
       btn1_attachClick btn2_attachClick btn1_attachLongPressStart
       btn2_attachLongPressStart btn1_attachLongPressStop
       btn2_attachLongPressStop].

Ltac short_texts_step :=
  first
    [ assumption
    | apply Forall_cons;
      [cbv beta iota; first [exact I | apply toCharArray5_length]|]
    | match goal with
      | |- context [trace (if ?c then _ else _)] => destruct c
      end ];
  trace_norm.

Ltac short_texts_auto :=
  unfold short_texts in *; cbv zeta; trace_norm; repeat short_texts_step.

Lemma on_enter_short_texts (s : State) (m : Machine) :
  short_texts (trace m) -> short_texts (trace (on_enter s m)).
Proof.
  intros Hs.
  destruct s; cbn [on_enter];
    unfold on_init_enter, on_run_enter, on_setup_mode_enter, on_setup_midi_enter,
      on_setup_mode1_enter, on_setup_mode1_low_enter, on_setup_mode1_hi_enter,
      on_setup_mode2_enter, on_setup_mode2_btn1_enter, on_setup_mode2_btn2_enter,
      on_setup_mode3_enter, on_setup_mode3_btn1PC1_enter,
      on_setup_mode3_btn1PC2_enter, on_setup_mode3_btn2PC1_enter,
      on_setup_mode3_btn2PC2_enter, on_setup_exit_enter;
    short_texts_auto.
Qed.

Lemma on_exit_short_texts (s : State) (m : Machine) :
  short_texts (trace m) -> short_texts (trace (on_exit s m)).
Proof.
  intros Hs. destruct s; cbn [on_exit]; unfold on_setup_exit_exit;
    short_texts_auto.
Qed.

Lemma trigger_short_texts (event : Z) (m : Machine) :
  short_texts (trace m) -> short_texts (trace (trigger event m)).
Proof.
  intros Hs. unfold trigger. cbv zeta.
  assert (Hs' : short_texts (trace (emit (Trigger event) m)))
    by short_texts_auto.
  destruct (m_initialized (main_fsm (emit (Trigger event) m))); [|exact Hs'].
  destruct (find_transition transitions
              (m_current_state (main_fsm (emit (Trigger event) m))) event);
    [|exact Hs'].
  unfold make_transition. cbv zeta. cbn [trace set_current_state set_main_fsm].
  apply on_enter_short_texts, on_exit_short_texts, Hs'.
Qed.

Ltac short_texts_trigger :=
  repeat first
    [ assumption
    | apply trigger_short_texts
    | apply Forall_cons;
      [cbv beta iota; first [exact I | apply toCharArray5_length]|]
    | match goal with
      | |- context [trace (if ?c then _ else _)] => destruct c
      end
    | progress trace_norm ].

(** Every callback keeps the texts short, on every machine. *)
Lemma call_short_texts (f : callbackFunction) (m : Machine) :
  short_texts (trace m) -> short_texts (trace (call f m)).
Proof.
  intros Hs.
  destruct f; cbn [call];
    unfold cyclePcDown, cyclePcUp, sendBtn1PC, sendBtn2PC, sendBtn1TogglePC,
      sendBtn2TogglePC, longPressStart1, longPressStart2, longPressFromRun,
      modeDown, modeUp, longPressFromSetupMode, midiChnDown, midiChnUp,
      longPressFromSetupMidi, nullClick, longPressFromSetupMode1,
      mode1LowLimitDecrease, mode1LowLimitIncrease, longPressFromSetupMode1Low,
      mode1HiLimitDecrease, mode1HiLimitIncrease, longPressFromSetupMode1Hi,
      longPressFromSetupMode2, mode2Btn1Decrease, mode2Btn1Increase,
      longPressFromSetupMode2Btn1, mode2Btn2Decrease, mode2Btn2Increase,
      longPressFromSetupMode2Btn2, longPressFromSetupMode3, longPressToRun;
    unfold short_texts in *; cbv zeta; trace_norm; short_texts_trigger.
Qed.

(** X15.  Every text the sketch hands to [segDisp.setChars] has at most four
    characters, the width of the display. *)
Theorem display_texts_fit (m : Machine) :
  reachable m -> short_texts (trace m).
Proof.
  induction 1 as [e | m ev Hr IH].
  - unfold setup, readSettings, loadDefaultSettings. short_texts_auto.
    all: apply Forall_nil.
  - destruct ev as [b | b | b | now]; cbn [step].
    + apply call_short_texts, IH.
    + apply call_short_texts, IH.
    + apply call_short_texts, IH.
    + unfold run_machine, check_timed_transitions, make_transition.
      short_texts_auto;
        repeat first [ assumption | apply on_enter_short_texts
                     | apply on_exit_short_texts | progress trace_norm
                     | short_texts_step ].
Qed.

Lemma display_texts_fit_witness : short_texts (trace low_limit_raised).
Proof.
  apply display_texts_fit.
  do 2 apply reachable_run_events. exact booted_reachable.
Defined.

(** The lemma on the latches at a machine with button 2 held. *)
Lemma stop_clears_latches_witness :
  btn1_state (step (step at_setup_mode3 (LongPressStart Btn2)) (LongPressStop Btn2)) = 0
  /\ btn2_state (step (step at_setup_mode3 (LongPressStart Btn2)) (LongPressStop Btn2)) = 0.
Proof.
  apply stop_clears_latches.
  apply reachable_step. do 3 apply reachable_run_events. exact booted_reachable.
Defined.

(** X17.  Until [state_run] is entered for the first time the buttons are
    dead: no click, long-press-start or long-press-stop changes anything. *)
Theorem buttons_are_dead_on_splash (m : Machine) (b : Button) :
  reachable m ->
  current_state m = state_init ->
  step m (Click b) = m
  /\ step m (LongPressStart b) = m
  /\ step m (LongPressStop b) = m.
Proof.
  intros Hr Hcur. pose proof (reachable_wired m Hr) as H.
  pose proof (reachable_clicks_wired m Hr) as Hc. unfold clicks_wired in Hc.
  rewrite Hcur in Hc. cbn in Hc. injection Hc as E1 E2.
  open_machine m. open_wired H. cbn in Hcur, E1, E2. subst.
  injection Hstop as <- <-.
  destruct (Hinit eq_refl) as (-> & -> & _).
  destruct b; split_all; reflexivity.
Qed.

Lemma buttons_are_dead_on_splash_witness :
  step at_init (LongPressStart Btn1) = at_init.
Proof.
  assert (Hr : reachable at_init) by (apply reachable_step, reachable_setup).
  assert (Hcur : current_state at_init = state_init) by (vm_compute; reflexivity).
  destruct (buttons_are_dead_on_splash at_init Btn1 Hr Hcur) as (_ & H & _).
  exact H.
Defined.

(** X18.  Both buttons held long have the same effect whichever is released
    first, in every state but [state_setup_mode1_hi]. *)
Theorem release_order_does_not_matter (m : Machine) :
  reachable m ->
  current_state m <> state_setup_mode1_hi ->
  run_events m (long_press_both Btn1) = run_events m (long_press_both Btn2).
Proof.
  intros Hr Hcur. apply reachable_wired in Hr.
  open_machine m. open_wired Hr. cbn in Hcur.
  destruct cur; try discriminate Hstop; try congruence;
    injection Hstop as <- <-.
  1: destruct (Hinit eq_refl) as (-> & -> & -> & ->); reflexivity.
  all: destruct Hpast as (-> & -> & ->); [discriminate|];
    destruct Hrm as [-> | [-> | ->]]; vm_compute; reflexivity.
Qed.

Lemma release_order_does_not_matter_witness :
  run_events booted (long_press_both Btn1) = run_events booted (long_press_both Btn2).
Proof.
  assert (Hcur : current_state booted <> state_setup_mode1_hi)
    by (vm_compute; discriminate).
  exact (release_order_does_not_matter booted booted_reachable Hcur).
Defined.

(** ** The edit callbacks *)

(** X19.  On the run modes 1, 2, 3 [modeUp] steps 1, 2, 3, 1 and [modeDown]
    steps back; each undoes the other, three steps of either come back, and
    no other value is ever produced. *)
Theorem run_mode_selection_cycles (m : Machine) :
  valid_run_mode m ->
  run_mode (modeUp m) = (if run_mode m =? RUN_MODE3 then RUN_MODE1 else run_mode m + 1)
  /\ run_mode (modeDown m) = (if run_mode m =? RUN_MODE1 then RUN_MODE3 else run_mode m - 1)
  /\ run_mode (modeDown (modeUp m)) = run_mode m
  /\ run_mode (modeUp (modeDown m)) = run_mode m
  /\ run_mode (modeUp (modeUp (modeUp m))) = run_mode m
  /\ run_mode (modeDown (modeDown (modeDown m))) = run_mode m
  /\ valid_run_mode (modeUp m) /\ valid_run_mode (modeDown m).
Proof.
  unfold valid_run_mode. open_machine m. cbn [run_mode].
  intros [-> | [-> | ->]]; split_all; vm_compute; auto.
Qed.

Lemma run_mode_selection_cycles_witness :
  run_mode (modeUp (modeUp (modeUp booted))) = 1
  /\ run_mode (modeDown booted) = 3.
Proof.
  assert (Hv : valid_run_mode booted) by (left; vm_compute; reflexivity).
  destruct (run_mode_selection_cycles booted Hv) as (_ & Hd & _ & _ & H3 & _).
  split.
  - rewrite H3. vm_compute. reflexivity.
  - rewrite Hd. vm_compute. reflexivity.
Defined.

(** X20.  On the channels 1..16 [midiChnUp] and [midiChnDown] undo each other
    on the whole settings record; up from 16 gives 1, down from 1 gives 16,
    any other click moves the channel by one, and the channel stays within
    1..16. *)
Theorem midi_channel_edit (m : Machine) :
  1 <= midiChannel (_settings m) <= 16 ->
  _settings (midiChnDown (midiChnUp m)) = _settings m
  /\ _settings (midiChnUp (midiChnDown m)) = _settings m
  /\ midiChannel (_settings (midiChnUp m))
     = (if midiChannel (_settings m) =? 16 then 1 else midiChannel (_settings m) + 1)
  /\ midiChannel (_settings (midiChnDown m))
     = (if midiChannel (_settings m) =? 1 then 16 else midiChannel (_settings m) - 1)
  /\ 1 <= midiChannel (_settings (midiChnUp m)) <= 16
  /\ 1 <= midiChannel (_settings (midiChnDown m)) <= 16.
Proof.
  open_machine m. cbn [_settings midiChannel]. intros Hch.
  split_all; crunch;
    repeat match goal with
    | H : (_ =? _) = true |- _ => apply Z.eqb_eq in H
    | H : (_ =? _) = false |- _ => apply Z.eqb_neq in H
    | H : (_ <? _) = _ |- _ => clear H
    | H : (_ >=? _) = _ |- _ => clear H
    end;
    unfold byte_wrap in *;
    try (f_equal; Z.div_mod_to_equations; lia);
    Z.div_mod_to_equations; lia.
Qed.

Lemma midi_channel_edit_witness :
  midiChannel (_settings (midiChnDown booted)) = 16.
Proof.
  assert (Hch : 1 <= midiChannel (_settings booted) <= 16)
    by (vm_compute; split; discriminate).
  destruct (midi_channel_edit booted Hch) as (_ & _ & _ & Hd & _).
  rewrite Hd. vm_compute. reflexivity.
Defined.

Ltac edit_arith :=
  repeat match goal with
  | H : (_ =? _) = true |- _ => apply Z.eqb_eq in H
  | H : (_ =? _) = false |- _ => apply Z.eqb_neq in H
  | H : (_ <? _) = _ |- _ => clear H
  | H : (_ >=? _) = _ |- _ => clear H
  end;
  unfold byte_wrap in *;
  try (f_equal; Z.div_mod_to_equations; lia);
  Z.div_mod_to_equations; lia.

(** X21.  Each of the four program numbers the setup screens edit (the two
    limits of mode 1, the two numbers of mode 2) behaves alike: within 0..127
    "increase" and "decrease" undo each other on the whole settings record,
    up from 127 gives 0, down from 0 gives 127, any other click moves the
    number by one, and the number stays within 0..127. *)
Theorem program_number_edit (k : PcField) (m : Machine) :
  0 <= pc_field k (_settings m) <= 127 ->
  _settings (pc_decrease k (pc_increase k m)) = _settings m
  /\ _settings (pc_increase k (pc_decrease k m)) = _settings m
  /\ pc_field k (_settings (pc_increase k m))
     = (if pc_field k (_settings m) =? 127 then 0 else pc_field k (_settings m) + 1)
  /\ pc_field k (_settings (pc_decrease k m))
     = (if pc_field k (_settings m) =? 0 then 127 else pc_field k (_settings m) - 1)
  /\ 0 <= pc_field k (_settings (pc_increase k m)) <= 127
  /\ 0 <= pc_field k (_settings (pc_decrease k m)) <= 127.
Proof.
  open_machine m. destruct k; cbn [pc_field pc_decrease pc_increase _settings
    mode1_lowlimitPC mode1_highlimitPC mode2_btn1PC mode2_btn2PC]; intros Hpc;
    split_all; crunch; edit_arith.
Qed.

Lemma program_number_edit_witness :
  pc_field Mode1Low (_settings (pc_decrease Mode1Low booted)) = 127.
Proof.
  assert (Hpc : 0 <= pc_field Mode1Low (_settings booted) <= 127)
    by (vm_compute; split; discriminate).
  destruct (program_number_edit Mode1Low booted Hpc) as (_ & _ & _ & Hd & _).
  rewrite Hd. vm_compute. reflexivity.
Defined.

(** ** Run mode 1, continued *)

Lemma cyclePcUp_settings (m : Machine) : _settings (cyclePcUp m) = _settings m.
Proof. open_machine m. crunch; reflexivity. Qed.

Lemma cyclePcDown_settings (m : Machine) : _settings (cyclePcDown m) = _settings m.
Proof. open_machine m. crunch; reflexivity. Qed.

Lemma cyclePcUp_current (m : Machine) :
  mode1_currentPC (cyclePcUp m)
  = if mode1_currentPC m =? mode1_highlimitPC (_settings m)
    then mode1_lowlimitPC (_settings m)
    else int_wrap (mode1_currentPC m + 1).
Proof. open_machine m. crunch; reflexivity. Qed.

Lemma cyclePcDown_current (m : Machine) :
  mode1_currentPC (cyclePcDown m)
  = if mode1_currentPC m =? mode1_lowlimitPC (_settings m)
    then mode1_highlimitPC (_settings m)
    else int_wrap (mode1_currentPC m - 1).
Proof. open_machine m. crunch; reflexivity. Qed.

Lemma int_wrap_small (z : Z) : INT_MIN <= z <= INT_MAX -> int_wrap z = z.
Proof.
  unfold INT_MIN, INT_MAX, int_wrap. intros Hz.
  rewrite Z.mod_small by lia. lia.
Qed.

(** X22.  With byte limits and the current value between them, a click on
    button 2 undoes a click on button 1 and the other way round. *)
Theorem mode1_clicks_undo_each_other (m : Machine) :
  is_byte (mode1_lowlimitPC (_settings m)) ->
  is_byte (mode1_highlimitPC (_settings m)) ->
  cycle_in_range m ->
  mode1_currentPC (cyclePcDown (cyclePcUp m)) = mode1_currentPC m
  /\ mode1_currentPC (cyclePcUp (cyclePcDown m)) = mode1_currentPC m.
Proof.
  unfold is_byte, cycle_in_range. intros Hlo Hhi Hc.
  split.
  - rewrite cyclePcDown_current, cyclePcUp_settings, cyclePcUp_current.
    destruct (Z.eqb_spec (mode1_currentPC m) (mode1_highlimitPC (_settings m))).
    + rewrite Z.eqb_refl. congruence.
    + rewrite int_wrap_small by (unfold INT_MIN, INT_MAX; lia).
      destruct (Z.eqb_spec (mode1_currentPC m + 1) (mode1_lowlimitPC (_settings m)));
        [lia|].
      rewrite int_wrap_small by (unfold INT_MIN, INT_MAX; lia). lia.
  - rewrite cyclePcUp_current, cyclePcDown_settings, cyclePcDown_current.
    destruct (Z.eqb_spec (mode1_currentPC m) (mode1_lowlimitPC (_settings m))).
    + rewrite Z.eqb_refl. congruence.
    + rewrite int_wrap_small by (unfold INT_MIN, INT_MAX; lia).
      destruct (Z.eqb_spec (mode1_currentPC m - 1) (mode1_highlimitPC (_settings m)));
        [lia|].
      rewrite int_wrap_small by (unfold INT_MIN, INT_MAX; lia). lia.
Qed.

Lemma mode1_clicks_undo_each_other_witness :
  mode1_currentPC (cyclePcDown (cyclePcUp booted)) = 0.
Proof.
  assert (Hlo : is_byte (mode1_lowlimitPC (_settings booted)))
    by (vm_compute; split; discriminate).
  assert (Hhi : is_byte (mode1_highlimitPC (_settings booted)))
    by (vm_compute; split; discriminate).
  assert (Hc : cycle_in_range booted)
    by (unfold cycle_in_range; vm_compute; split; discriminate).
  destruct (mode1_clicks_undo_each_other booted Hlo Hhi Hc) as [H _].
  rewrite H. vm_compute. reflexivity.
Defined.

Lemma iter_cyclePcUp (k : nat) (m : Machine) :
  is_byte (mode1_highlimitPC (_settings m)) ->
  0 <= mode1_currentPC m ->
  mode1_currentPC m + Z.of_nat k <= mode1_highlimitPC (_settings m) ->
  mode1_currentPC (Nat.iter k cyclePcUp m) = mode1_currentPC m + Z.of_nat k
  /\ _settings (Nat.iter k cyclePcUp m) = _settings m.
Proof.
  unfold is_byte. intros Hhi H0. induction k as [| k IH]; intros Hk.
  - cbn. split; [lia | reflexivity].
  - destruct IH as [IHc IHs]; [lia|].
    rewrite Nat.iter_succ. rewrite cyclePcUp_settings, cyclePcUp_current, IHs, IHc.
    split; [|reflexivity].
    destruct (Z.eqb_spec (mode1_currentPC m + Z.of_nat k)
                (mode1_highlimitPC (_settings m))); [lia|].
    rewrite int_wrap_small by (unfold INT_MIN, INT_MAX; lia). lia.
Qed.

Lemma iter_cyclePcDown (k : nat) (m : Machine) :
  is_byte (mode1_highlimitPC (_settings m)) ->
  mode1_currentPC m <= mode1_highlimitPC (_settings m) ->
  mode1_lowlimitPC (_settings m) <= mode1_currentPC m - Z.of_nat k ->
  is_byte (mode1_lowlimitPC (_settings m)) ->
  mode1_currentPC (Nat.iter k cyclePcDown m) = mode1_currentPC m - Z.of_nat k
  /\ _settings (Nat.iter k cyclePcDown m) = _settings m.
Proof.
  unfold is_byte. intros Hhi H0. induction k as [| k IH]; intros Hk Hlo.
  - cbn. split; [lia | reflexivity].
  - destruct IH as [IHc IHs]; [lia | exact Hlo |].
    rewrite Nat.iter_succ. rewrite cyclePcDown_settings, cyclePcDown_current, IHs, IHc.
    split; [|reflexivity].
    destruct (Z.eqb_spec (mode1_currentPC m - Z.of_nat k)
                (mode1_lowlimitPC (_settings m))); [lia|].
    rewrite int_wrap_small by (unfold INT_MIN, INT_MAX; lia). lia.
Qed.

(** X23.  With byte limits and the current value between them, as many clicks
    on one button as there are values from low to high bring the current
    value back to where it was: mode 1 is a cycle of high - low + 1 values. *)
Theorem mode1_cycle_period (m : Machine) :
  is_byte (mode1_lowlimitPC (_settings m)) ->
  is_byte (mode1_highlimitPC (_settings m)) ->
  cycle_in_range m ->
  let n := Z.to_nat (mode1_highlimitPC (_settings m)
                     - mode1_lowlimitPC (_settings m) + 1) in
  mode1_currentPC (Nat.iter n cyclePcUp m) = mode1_currentPC m
  /\ mode1_currentPC (Nat.iter n cyclePcDown m) = mode1_currentPC m.
Proof.
  intros Hlo Hhi Hc. pose proof Hlo as Hlo'. pose proof Hhi as Hhi'.
  unfold is_byte in Hlo', Hhi'. unfold cycle_in_range in Hc. cbv zeta.
  set (lo := mode1_lowlimitPC (_settings m)) in *.
  set (hi := mode1_highlimitPC (_settings m)) in *.
  set (c := mode1_currentPC m) in *.
  replace (Z.to_nat (hi - lo + 1))
    with (Z.to_nat (c - lo) + (1 + Z.to_nat (hi - c)))%nat by lia.
  split.
  - rewrite Nat.iter_add, Nat.iter_add.
    destruct (iter_cyclePcUp (Z.to_nat (hi - c)) m) as [E1 S1];
      fold lo hi c; try assumption; try lia.
    set (m1 := Nat.iter (Z.to_nat (hi - c)) cyclePcUp m) in *.
    change (Nat.iter 1 ?f ?x) with (f x).
    assert (E2 : mode1_currentPC (cyclePcUp m1) = lo).
    { rewrite cyclePcUp_current, S1, E1. fold hi c lo.
      replace (c + Z.of_nat (Z.to_nat (hi - c))) with hi by lia.
      rewrite Z.eqb_refl. reflexivity. }
    assert (S2 : _settings (cyclePcUp m1) = _settings m)
      by (rewrite cyclePcUp_settings; exact S1).
    destruct (iter_cyclePcUp (Z.to_nat (c - lo)) (cyclePcUp m1)) as [E3 _];
      rewrite ?S2, ?E2; fold lo hi; try assumption; try lia.
  - replace (Z.to_nat (c - lo) + (1 + Z.to_nat (hi - c)))%nat
      with (Z.to_nat (hi - c) + (1 + Z.to_nat (c - lo)))%nat by lia.
    rewrite Nat.iter_add, Nat.iter_add.
    destruct (iter_cyclePcDown (Z.to_nat (c - lo)) m) as [E1 S1];
      fold lo hi c; try assumption; try lia.
    set (m1 := Nat.iter (Z.to_nat (c - lo)) cyclePcDown m) in *.
    change (Nat.iter 1 ?f ?x) with (f x).
    assert (E2 : mode1_currentPC (cyclePcDown m1) = hi).
    { rewrite cyclePcDown_current, S1, E1. fold hi c lo.
      replace (c - Z.of_nat (Z.to_nat (c - lo))) with lo by lia.
      rewrite Z.eqb_refl. reflexivity. }
    assert (S2 : _settings (cyclePcDown m1) = _settings m)
      by (rewrite cyclePcDown_settings; exact S1).
    destruct (iter_cyclePcDown (Z.to_nat (hi - c)) (cyclePcDown m1)) as [E3 _];
      rewrite ?S2, ?E2; fold lo hi; try assumption; try lia.
Qed.

Lemma mode1_cycle_period_witness :
  mode1_currentPC
    (Nat.iter (Z.to_nat (mode1_highlimitPC (_settings booted)
                         - mode1_lowlimitPC (_settings booted) + 1))
       cyclePcUp booted)
  = mode1_currentPC booted.
Proof.
  assert (Hlo : is_byte (mode1_lowlimitPC (_settings booted)))
    by (vm_compute; split; discriminate).
  assert (Hhi : is_byte (mode1_highlimitPC (_settings booted)))
    by (vm_compute; split; discriminate).
  assert (Hc : cycle_in_range booted)
    by (unfold cycle_in_range; vm_compute; split; discriminate).
  destruct (mode1_cycle_period booted Hlo Hhi Hc) as [H _].
  exact H.
Defined.

(** ** Run mode 3, continued *)

(** X24.  Whatever the current value of a button was, after one mode 3 click
    it is one of the two values configured for the button, and the click
    sends it on the configured channel; right after power-on the first click
    sends the second value of the pair. *)
Theorem mode3_click_lands_in_pair (b : Button) (m : Machine) (e : nat -> Z) :
  (mode3_current b (sendTogglePC b m) = mode3_PC1 b (_settings m)
   \/ mode3_current b (sendTogglePC b m) = mode3_PC2 b (_settings m))
  /\ program_changes (trace (sendTogglePC b m))
     = (mode3_current b (sendTogglePC b m), midiChannel (_settings m))
       :: program_changes (trace m)
  /\ _settings (sendTogglePC b m) = _settings m
  /\ mode3_current b (sendTogglePC b (setup (power_on e)))
     = mode3_PC2 b (_settings (setup (power_on e))).
Proof.
  open_machine m. split_all.
  - destruct b; crunch; auto.
  - destruct b; crunch; reflexivity.
  - destruct b; crunch; reflexivity.
  - destruct b; crunch;
      repeat match goal with
      | H : (_ =? _) = false |- _ => rewrite Z.eqb_refl in H; discriminate H
      end; reflexivity.
Qed.

(** ** The display, continued *)

Lemma substring_0_all (n : nat) (s : string) :
  (String.length s <= n)%nat -> substring 0 n s = s.
Proof.
  revert n; induction s as [| c s IH]; intros n Hn; destruct n as [| n];
    cbn in *; try reflexivity; try lia.
  rewrite IH by lia. reflexivity.
Qed.

Lemma digits_of_small_numbers (no : Z) :
  0 <= no <= 999 ->
  String.length (String_of_int no)
  = if no <? 10 then 1%nat else if no <? 100 then 2%nat else 3%nat.
Proof.
  intros Hno.
  assert (Hall : forallb digits_ok (seq 0 1000) = true) by (vm_compute; reflexivity).
  rewrite forallb_forall in Hall.
  specialize (Hall (Z.to_nat no)).
  unfold digits_ok in Hall. rewrite Z2Nat.id in Hall by lia.
  apply Nat.eqb_eq in Hall; [|apply in_seq; lia].
  rewrite Hall.
  destruct (Z.ltb_spec no 10), (Nat.ltb_spec (Z.to_nat no) 10); try lia;
    try reflexivity.
  destruct (Z.ltb_spec no 100), (Nat.ltb_spec (Z.to_nat no) 100); try lia;
    reflexivity.
Qed.

Lemma length_append (s t : string) :
  String.length (s ++ t) = (String.length s + String.length t)%nat.
Proof. induction s as [| c s IH]; cbn; [reflexivity | rewrite IH; reflexivity]. Qed.

Lemma substring_0_0 (s : string) : substring 0 0 s = ""%string.
Proof. destruct s; reflexivity. Qed.

(** X25.  For a label of two characters or more and a number within 0..999,
    [updateDisplay(str, no)] shows exactly four characters that end with all
    decimal digits of the number: program numbers and channels are never cut
    off.  Before them come two characters of the label and a blank (below
    10), two characters of the label (below 100) or one (from 100 on). *)
Theorem number_is_shown_in_full (str : string) (no : Z) (m : Machine) :
  (2 <= String.length str)%nat ->
  0 <= no <= 999 ->
  exists label,
    trace (updateDisplayNo str no m)
    = SetChars (label ++ String_of_int no) :: trace m
    /\ String.length (label ++ String_of_int no) = 4%nat
    /\ label = if no <? 10 then (substring 0 2 str ++ " ")%string
               else if no <? 100 then substring 0 2 str
               else substring 0 1 str.
Proof.
  intros Hstr Hno. pose proof (digits_of_small_numbers no Hno) as Hd.
  destruct str as [| a [| b rest]]; cbn in Hstr; try lia. clear Hstr.
  unfold updateDisplayNo. cbv zeta. cbn [trace emit]. unfold toCharArray5.
  eexists. split; [|split; [|reflexivity]].
  - destruct (Z.ltb_spec no 10) as [H10 | H10].
    + cbn [substring]. rewrite ?substring_0_0. cbn [append].
      rewrite substring_0_all; [reflexivity|].
      change (String a (String b (String ?c (String_of_int no))))
        with (String a (String b (String c "")) ++ String_of_int no)%string.
      rewrite length_append, Hd. cbn. lia.
    + replace (no >=? 10) with true by (symmetry; apply Z.geb_le; lia).
      cbn [andb]. destruct (Z.ltb_spec no 100) as [H100 | H100];
        cbn [substring]; rewrite ?substring_0_0; cbn [append];
        (rewrite substring_0_all; [reflexivity|]).
      * change (String a (String b (String_of_int no)))
          with (String a (String b "") ++ String_of_int no)%string.
        rewrite length_append, Hd. cbn. lia.
      * change (String a (String_of_int no))
          with (String a "" ++ String_of_int no)%string.
        rewrite length_append, Hd. cbn. lia.
  - rewrite length_append, Hd.
    destruct (no <? 10); [|destruct (no <? 100)];
      cbn [substring]; rewrite ?substring_0_0; reflexivity.
Qed.

Lemma number_is_shown_in_full_witness :
  exists label,
    trace (updateDisplayNo "PC" 127 booted) = SetChars (label ++ "127") :: trace booted.
Proof.
  assert (Hstr : (2 <= String.length "PC")%nat) by apply le_n.
  assert (Hno : 0 <= 127 <= 999) by lia.
  destruct (number_is_shown_in_full "PC" 127 booted Hstr Hno) as (label & H & _).
  exists label. exact H.
Defined.
